(** * prayer-bot: the WhatsApp prayer-reminder bot

    A shallow embedding of [src/WhatsAppBot.ts] (the reusable bot class) and
    [src/index.ts] (the [PrayerReminderBot] application and [main]), and the
    properties of the design document checked against it.

    Modelling choices.
    - JavaScript strings are [string]s of UTF-8 bytes.
    - An [async] function is a value of [Proc]: a finite tree whose [Await]
      nodes are the points where the function is suspended on a promise of
      the transport (whatsapp-web.js); everything between two [Await]s runs
      without interleaving, as on the JavaScript event loop.
    - [this] fields are explicit state: [WhatsAppBot.t] for the bot class,
      [World] for the application, the node-cron tasks and [process.env].
    - Console output and the [verbose] switch that only guards it are left
      out; so is the Puppeteer configuration of the constructor.
    - Two behaviours of the platform are part of the model. node-cron
      validates the pattern and the time zone when a task is scheduled:
      what it throws is an input, [cronRefusal]. Node.js (v18 or higher, as
      the README requires, started without a handler or flag for unhandled
      rejections) ends the process with exit code 1 when the promise of an
      async handler is rejected and nothing catches it.
    - The six handler slots of [WhatsAppBot.eventHandlers] are filled once, by
      the constructor of [PrayerReminderBot], before any event is delivered;
      each client listener is modelled followed by the handler registered
      there. *)

From Stdlib Require Import String Ascii List ZArith Lia Bool DecimalString.
From stdpp Require Import base list strings.

Open Scope string_scope.

(** ** JavaScript values and string primitives *)

(** A thrown value: an [Error] object with its [message], or anything else. *)
Inductive Thrown : Type :=
| ErrorObj (message : string)
| NonError.

(** [error instanceof Error ? error.message : 'Unknown error'] *)
Definition errorMessage (error : Thrown) : string :=
  match error with
  | ErrorObj message => message
  | NonError => "Unknown error"
  end.

(** Truthiness of an optional string: [undefined] and [''] are falsy. *)
Definition truthy (v : option string) : bool :=
  match v with
  | Some s => negb (String.eqb s EmptyString)
  | None => false
  end.

(** [v || d] on an optional string. *)
Definition orDefault (v : option string) (d : string) : string :=
  match v with
  | Some s => if String.eqb s EmptyString then d else s
  | None => d
  end.

(** [v === lit] on an optional string. *)
Definition strictEq (v : option string) (lit : string) : bool :=
  match v with
  | Some s => String.eqb s lit
  | None => false
  end.

Definition lowerAscii (c : ascii) : ascii :=
  let n := nat_of_ascii c in
  if (65 <=? n)%nat && (n <=? 90)%nat then ascii_of_nat (n + 32) else c.

(** [String.prototype.toLowerCase], on the letters A-Z. The runtime also
    lowers cased letters outside ASCII; none of them lowers to a character of
    the command table below, so equality with a command is decided alike. *)
Fixpoint toLowerCase (s : string) : string :=
  match s with
  | EmptyString => EmptyString
  | String c s' => String (lowerAscii c) (toLowerCase s')
  end.

(** [s.endsWith(suffix)] *)
Definition endsWith (s suffix : string) : bool :=
  let n := String.length s in
  let m := String.length suffix in
  (m <=? n)%nat && String.eqb (substring (n - m) m s) suffix.

(** [`${n}`] for a non-negative integer. *)
Definition numberToString (n : nat) : string :=
  NilEmpty.string_of_uint (Nat.to_uint n).

(** ** The transport: the whatsapp-web.js client *)

(** An inbound [Message]: the two fields the application reads. *)
Record Message : Type := mkMessage { from : string; body : string }.

(** [new Poll(question, pollOptions, { allowMultipleAnswers, messageSecret })] *)
Record Poll : Type := mkPoll {
  pollName : string;
  pollOptions : list string;
  pollAllowMultipleAnswers : bool;
  messageSecret : list Z
}.

Inductive Content : Type :=
| Text (s : string)
| PollContent (p : Poll).

(** The [sendOptions] object of [sendMessage]; an unset key is [None]. *)
Record SendOptions : Type := mkSendOptions {
  mentions : option (list string);
  sendQuotedMessageId : option string
}.

(** The asynchronous operations of the transport the code awaits. *)
Inductive Call : Type :=
| client_initialize
| client_sendMessage (chatId : string) (content : Content) (options : option SendOptions)
| message_reply (message : Message) (content : string)
| client_destroy.

(** How the transport settles a promise. The value of a fulfilled
    [initialize] or [destroy] is discarded by the code. *)
Inductive Settled : Type :=
| Fulfilled (ack : Message)
| Rejected (reason : Thrown).

(** ** Asynchronous procedures *)

Inductive Proc (St A : Type) : Type :=
| Ret (a : A)
| Throw (e : Thrown)
| Exit (code : Z)
| Get (k : St -> Proc St A)
| Put (s : St) (k : Proc St A)
| Await (c : Call) (k : Settled -> Proc St A).

Arguments Ret {St A} a.
Arguments Throw {St A} e.
Arguments Exit {St A} code.
Arguments Get {St A} k.
Arguments Put {St A} s k.
Arguments Await {St A} c k.

Fixpoint bind {St A B} (p : Proc St A) (f : A -> Proc St B) : Proc St B :=
  match p with
  | Ret a => f a
  | Throw e => Throw e
  | Exit code => Exit code
  | Get k => Get (fun s => bind (k s) f)
  | Put s k => Put s (bind k f)
  | Await c k => Await c (fun r => bind (k r) f)
  end.

#[global] Instance Proc_ret {St} : MRet (Proc St) := fun A a => Ret a.
#[global] Instance Proc_bind {St} : MBind (Proc St) := fun A B f p => bind p f.

(** [try { p } catch (error) { h error }] *)
Fixpoint tryCatch {St A} (p : Proc St A) (h : Thrown -> Proc St A) : Proc St A :=
  match p with
  | Ret a => Ret a
  | Throw e => h e
  | Exit code => Exit code
  | Get k => Get (fun s => tryCatch (k s) h)
  | Put s k => Put s (tryCatch k h)
  | Await c k => Await c (fun r => tryCatch (k r) h)
  end.

(** [await] of a transport promise: the fulfilled value, or the rejection
    rethrown at the [await]. *)
Definition await {St} (c : Call) : Proc St Message :=
  Await c (fun r => match r with
                    | Fulfilled ack => Ret ack
                    | Rejected reason => Throw reason
                    end).

(** Where a procedure stands once it has run as far as it can without the
    transport. *)
Inductive Status (St A : Type) : Type :=
| Done (a : A)
| Failed (e : Thrown)
| Exited (code : Z)
| Suspended (c : Call) (k : Settled -> Proc St A).

Arguments Done {St A} a.
Arguments Failed {St A} e.
Arguments Exited {St A} code.
Arguments Suspended {St A} c k.

(** Run to the first [Await] (or to the end). *)
Fixpoint run {St A} (p : Proc St A) (s : St) : St * Status St A :=
  match p with
  | Ret a => (s, Done a)
  | Throw e => (s, Failed e)
  | Exit code => (s, Exited code)
  | Get k => run (k s) s
  | Put s' k => run k s'
  | Await c k => (s, Suspended c k)
  end.

(** How a procedure ends. *)
Inductive Outcome (A : Type) : Type :=
| Returned (a : A)
| Threw (e : Thrown)
| ProcessExit (code : Z).

Arguments Returned {A} a.
Arguments Threw {A} e.
Arguments ProcessExit {A} code.

(** Run to the end against a transport that settles every call at once;
    [transport] sees the calls issued before. The result carries the calls
    issued, in order. *)
Fixpoint exec {St A} (transport : list Call -> Call -> Settled)
    (issued : list Call) (p : Proc St A) (s : St) : St * list Call * Outcome A :=
  match p with
  | Ret a => (s, issued, Returned a)
  | Throw e => (s, issued, Threw e)
  | Exit code => (s, issued, ProcessExit code)
  | Get k => exec transport issued (k s) s
  | Put s' k => exec transport issued k s'
  | Await c k => exec transport (issued ++ [c]) (k (transport issued c)) s
  end.

(** A method of an object stored in a field of a larger state. *)
Fixpoint zoom {S T A} (get : T -> S) (set : S -> T -> T) (p : Proc S A) : Proc T A :=
  match p with
  | Ret a => Ret a
  | Throw e => Throw e
  | Exit code => Exit code
  | Get k => Get (fun t => zoom get set (k (get t)))
  | Put s k => Get (fun t => Put (set s t) (zoom get set k))
  | Await c k => Await c (fun r => zoom get set (k r))
  end.

(** ** WhatsAppBot.ts *)

Module SendMessageOptions.
Record t : Type := mk {
    chatId : string;
    content : string;
    parseMentions : bool;
    quotedMessageId : option string
  }.
End SendMessageOptions.

Module SendPollOptions.
Record t : Type := mk {
    chatId : string;
    question : string;
    options : list string;
    allowMultipleAnswers : option bool
  }.
End SendPollOptions.

Module WhatsAppBot.

(** The mutable state of the class. *)
Record t : Type := mk { isInitialized : bool }.

(** [constructor]: [isInitialized = false]. *)
Definition new : t := {| isInitialized := false |}.

Definition isReady (this : t) : bool := isInitialized this.

Definition notInitializedMessage : string :=
    "Bot is not initialized. Call initialize() first.".

Definition ensureInitialized : Proc t unit :=
    Get (fun this =>
      if negb (isInitialized this)
      then Throw (ErrorObj notInitializedMessage)
      else Ret tt).

Definition isDigit (c : ascii) : bool :=
    let n := nat_of_ascii c in (48 <=? n)%nat && (n <=? 57)%nat.

(** One match of [/@(\d+)/g] that has ended: its mention, if it had a digit. *)
Definition flushMention (cur : option string) : list string :=
    match cur with
    | Some digits => if String.eqb digits EmptyString then [] else [digits +:+ "@c.us"]
    | None => []
    end.

(** The [exec] loop over [/@(\d+)/g]; [cur] holds the digits read since the
      last [@], if the scan stands inside a candidate match. *)
Fixpoint scanMentions (cur : option string) (content : string) : list string :=
    match content with
    | EmptyString => flushMention cur
    | String c rest =>
        if isDigit c then
          match cur with
          | Some digits => scanMentions (Some (digits +:+ String c EmptyString)) rest
          | None => scanMentions None rest
          end
        else
          flushMention cur ++
          scanMentions (if Ascii.eqb c "@" then Some EmptyString else None) rest
    end.

Definition parseMentions (content _chatId : string) : list string :=
    scanMentions None content.

Definition sendMessage (options : SendMessageOptions.t) : Proc t Message :=
    ensureInitialized;;
    let chatId := SendMessageOptions.chatId options in
    let content := SendMessageOptions.content options in
    tryCatch
      (let sendOptions :=
         {| mentions :=
              if SendMessageOptions.parseMentions options
              then Some (parseMentions content chatId) else None;
            sendQuotedMessageId :=
              if truthy (SendMessageOptions.quotedMessageId options)
              then SendMessageOptions.quotedMessageId options else None |} in
       message ← await (client_sendMessage chatId (Text content) (Some sendOptions));
       mret message)
      (fun error =>
         Throw (ErrorObj ("Failed to send message: " +:+ errorMessage error))).

Definition sendPoll (options : SendPollOptions.t) : Proc t Message :=
    ensureInitialized;;
    let chatId := SendPollOptions.chatId options in
    let question := SendPollOptions.question options in
    let pollOptions := SendPollOptions.options options in
    let allowMultipleAnswers :=
      default false (SendPollOptions.allowMultipleAnswers options) in
    if (length pollOptions <? 2)%nat then
      Throw (ErrorObj "Poll must have at least 2 options")
    else if (12 <? length pollOptions)%nat then
      Throw (ErrorObj "Poll cannot have more than 12 options")
    else
      tryCatch
        (let poll := mkPoll question pollOptions allowMultipleAnswers [1%Z] in
         message ← await (client_sendMessage chatId (PollContent poll) None);
         mret message)
        (fun error =>
           Throw (ErrorObj ("Failed to send poll: " +:+ errorMessage error))).

(** [getBotInfo]: reads [client.info]; no transport call is awaited. *)
Definition getBotInfo : Proc t unit :=
    ensureInitialized;;
    mret tt.

Definition initialize : Proc t unit :=
    _ ← await client_initialize;
    mret tt.

Definition destroy : Proc t unit :=
    _ ← await client_destroy;
    Put {| isInitialized := false |} (Ret tt).

(** The two client listeners of [setupEventListeners] that write the
      state; the others only forward to the registered handler. *)
Definition onClientReady : Proc t unit :=
    Put {| isInitialized := true |} (Ret tt).

Definition onClientDisconnected : Proc t unit :=
    Put {| isInitialized := false |} (Ret tt).

End WhatsAppBot.

(** ** node-cron *)

(** A task created by [cron.schedule(pattern, callback, { scheduled, timezone })].
    The evaluation of [pattern] against the clock belongs to the library; the
    model keeps what the application can change: whether the task runs. *)
Record ScheduledTask : Type := mkTask {
  pattern : string;
  timezone : string;
  running : bool
}.

(** [task.stop()] *)
Definition taskStop (task : ScheduledTask) : ScheduledTask :=
  {| pattern := pattern task; timezone := timezone task; running := false |}.

(** ** index.ts *)

(** The keys of [process.env] the application reads. *)
Record Env : Type := mkEnv {
  TARGET_CHAT_ID : option string;
  CRON_PATTERN : option string;
  TIMEZONE : option string;
  TEST_MODE : option string
}.

(** [new Date()]: the two getters the application calls. *)
Record Date : Type := mkDate { getDate : nat; getMonth : nat }.

Module PrayerReminderBot.

Record t : Type := mk {
  bot : WhatsAppBot.t;
  targetChatId : string;
  scheduledTask : option nat
}.

(** [constructor(targetChatId)]; [scheduledTask] refers to a task of node-cron
    by its rank of creation. *)
Definition new (targetChatId : string) : t :=
  {| bot := WhatsAppBot.new; targetChatId := targetChatId; scheduledTask := None |}.

Definition setBot (b : WhatsAppBot.t) (this : t) : t :=
  {| bot := b; targetChatId := targetChatId this; scheduledTask := scheduledTask this |}.

Definition setScheduledTask (task : option nat) (this : t) : t :=
  {| bot := bot this; targetChatId := targetChatId this; scheduledTask := task |}.

End PrayerReminderBot.

(** Everything the application code reads or writes. [POLL_OPTIONS] is the
    array imported from [poll-options.json], which is not among the sources:
    it is an input of the model. [cronRefusal pattern timezone] is the error
    [cron.schedule] of node-cron throws for a pattern or a time zone it does
    not accept, [None] when it accepts both: the validation is the
    library's, so it is an input too. [now] is what [new Date()] returns. *)
Record World : Type := mkWorld {
  env : Env;
  POLL_OPTIONS : list string;
  cronRefusal : string -> string -> option Thrown;
  now : Date;
  cronTasks : list ScheduledTask;
  prayerBot : PrayerReminderBot.t
}.

Definition setCronTasks (tasks : list ScheduledTask) (w : World) : World :=
  {| env := env w; POLL_OPTIONS := POLL_OPTIONS w; cronRefusal := cronRefusal w;
     now := now w; cronTasks := tasks; prayerBot := prayerBot w |}.

Definition setPrayerBot (pb : PrayerReminderBot.t) (w : World) : World :=
  {| env := env w; POLL_OPTIONS := POLL_OPTIONS w; cronRefusal := cronRefusal w;
     now := now w; cronTasks := cronTasks w; prayerBot := pb |}.

Definition theBot (w : World) : WhatsAppBot.t := PrayerReminderBot.bot (prayerBot w).

(** [this.bot.method(...)] *)
Definition onBot {A} (method : Proc WhatsAppBot.t A) : Proc World A :=
  zoom theBot (fun b w => setPrayerBot (PrayerReminderBot.setBot b (prayerBot w)) w) method.

Definition arabicMonths : list string :=
  [ "يناير"; "فبراير"; "مارس"; "أبريل"; "مايو"; "يونيو";
    "يوليو"; "أغسطس"; "سبتمبر"; "أكتوبر"; "نوفمبر"; "ديسمبر" ].

(** [arabicMonths[monthIndex]]; an index past the end reads [undefined]. *)
Definition getArabicMonth (monthIndex : nat) : string :=
  default "undefined" (arabicMonths !! monthIndex).

(** The pattern and the time zone [scheduleDailyPoll] hands to node-cron. *)
Definition configuredPattern (e : Env) : string :=
  orDefault (CRON_PATTERN e) "0 9 * * *".

Definition configuredTimezone (e : Env) : string :=
  orDefault (TIMEZONE e) "Africa/Cairo".

(** [this.scheduledTask = cron.schedule(...)]: when node-cron throws, no task
    exists and the assignment does not happen. *)
Definition scheduleDailyPoll : Proc World unit :=
  Get (fun w =>
    match cronRefusal w (configuredPattern (env w)) (configuredTimezone (env w)) with
    | Some error => Throw error
    | None =>
        let task :=
          {| pattern := configuredPattern (env w);
             timezone := configuredTimezone (env w);
             running := true |} in
        let created := length (cronTasks w) in
        Put (setPrayerBot
               (PrayerReminderBot.setScheduledTask (Some created) (prayerBot w))
               (setCronTasks (cronTasks w ++ [task]) w))
            (Ret tt)
    end).

Definition sendDailyPrayerPoll : Proc World unit :=
  tryCatch
    (Get (fun w =>
       let currentDate := now w in
       let simpleDate :=
         numberToString (getDate currentDate) +:+ " " +:+
         getArabicMonth (getMonth currentDate) in
       let pollQuestion := "❤️ " +:+ simpleDate in
       let pollOptions := POLL_OPTIONS w in
       _ ← onBot (WhatsAppBot.sendPoll
              {| SendPollOptions.chatId := PrayerReminderBot.targetChatId (prayerBot w);
                 SendPollOptions.question := pollQuestion;
                 SendPollOptions.options := pollOptions;
                 SendPollOptions.allowMultipleAnswers := Some true |});
       mret tt))
    (fun error => Ret tt).

(** [if (this.scheduledTask) { this.scheduledTask.stop(); }]: the way the
    application disarms its schedule, in the disconnect handler and in
    [stop]. *)
Definition stopScheduledTasks : Proc World unit :=
  Get (fun w =>
    match PrayerReminderBot.scheduledTask (prayerBot w) with
    | Some task => Put (setCronTasks (alter taskStop task (cronTasks w)) w) (Ret tt)
    | None => Ret tt
    end).

Definition pollSentReply : string :=
  "✅ تم إرسال استطلاع الصلاة! (Prayer poll sent!)".

(** The line feed of a [\n] escape. *)
Definition LF : string := String "010" EmptyString.

Definition helpReply : string :=
  "🤖 *Prayer Reminder Bot Commands*" +:+ LF +:+ LF +:+
  "!prayer or !صلاة - Send prayer poll immediately" +:+ LF +:+
  "!help or !مساعدة - Show this help message" +:+ LF +:+ LF +:+
  "The bot automatically sends prayer polls every day at 9:00 AM 🕘".

(** The handlers registered by [setupBotEventHandlers]. *)

Definition onReady : Proc World unit :=
  tryCatch (onBot WhatsAppBot.getBotInfo) (fun error => Ret tt);;
  scheduleDailyPoll;;
  Get (fun w =>
    if strictEq (TEST_MODE (env w)) "true" then sendDailyPrayerPoll else Ret tt).

Definition onMessage (message : Message) : Proc World unit :=
  if String.eqb (from message) "status@broadcast"
     || endsWith (from message) "@newsletter" then
    Ret tt
  else if String.eqb (toLowerCase (body message)) "!prayer"
          || String.eqb (toLowerCase (body message)) "!صلاة" then
    sendDailyPrayerPoll;;
    _ ← await (message_reply message pollSentReply);
    mret tt
  else if String.eqb (toLowerCase (body message)) "!help"
          || String.eqb (toLowerCase (body message)) "!مساعدة" then
    _ ← await (message_reply message helpReply);
    mret tt
  else
    Ret tt.

Definition onDisconnected (reason : string) : Proc World unit :=
  stopScheduledTasks.

(** The callback handed to [cron.schedule]. *)
Definition cronCallback : Proc World unit :=
  sendDailyPrayerPoll.

Definition start : Proc World unit :=
  tryCatch (onBot WhatsAppBot.initialize) (fun error => Exit 1).

Definition stop : Proc World unit :=
  stopScheduledTasks;;
  onBot WhatsAppBot.destroy.

(** The [SIGINT] and [SIGTERM] handlers of [main]. *)
Definition onSignal : Proc World unit :=
  stop;;
  Exit 0.

(** What [main] has done when it reaches [await prayerBot.start()], or the
    exit it took before. *)
Inductive Startup : Type :=
| ExitBeforeConstruction (code : Z)
| Constructed (w : World) (next : Proc World unit).

Definition main (environment : Env) (pollOptions : list string)
    (refusal : string -> string -> option Thrown) (date : Date) : Startup :=
  match TARGET_CHAT_ID environment with
  | Some targetChatId =>
      if String.eqb targetChatId EmptyString then ExitBeforeConstruction 1
      else
        Constructed
          {| env := environment; POLL_OPTIONS := pollOptions;
             cronRefusal := refusal; now := date;
             cronTasks := []; prayerBot := PrayerReminderBot.new targetChatId |}
          start
  | None => ExitBeforeConstruction 1
  end.

(** ** The event loop *)

(** The events the client emits to the listeners of [setupEventListeners]. *)
Inductive ClientEvent : Type :=
| qr (code : string)
| authenticated
| auth_failure (message : string)
| ready
| message (m : Message)
| disconnected (reason : string).

(** A client listener of [WhatsAppBot.setupEventListeners], followed by the
    handler [PrayerReminderBot] registered for it. The handlers of [qr],
    [authenticated] and [auth_failure] only print. *)
Definition listener (e : ClientEvent) : Proc World unit :=
  match e with
  | qr _ => Ret tt
  | authenticated => Ret tt
  | auth_failure _ => Ret tt
  | ready => onBot WhatsAppBot.onClientReady;; onReady
  | message m => onMessage m
  | disconnected reason => onBot WhatsAppBot.onClientDisconnected;; onDisconnected reason
  end.

(** The running process: the application state, the activations suspended on
    a promise of the transport (each with the call it awaits), every call
    issued so far, the rejections no handler caught, and the exit code once
    the process has ended. *)
Record System : Type := mkSystem {
  world : World;
  pending : list (Call * (Settled -> Proc World unit));
  issued : list Call;
  unhandled : list Thrown;
  exited : option Z
}.

(** What the environment does to the process. *)
Inductive Event : Type :=
| Client (e : ClientEvent)
| CronFire (task : nat)
| Settle (activation : nat) (result : Settled)
| Signal.

(** Run an activation until it suspends or ends, and record where it stands.
    No listener awaits or catches the promise of its handler: when an
    activation ends in a rejection, the rejection is unhandled and Node.js
    ends the process with exit code 1. *)
Definition dispatch (p : Proc World unit) (s : System) : System :=
  match run p (world s) with
  | (w, Done _) =>
      {| world := w; pending := pending s; issued := issued s;
         unhandled := unhandled s; exited := exited s |}
  | (w, Failed e) =>
      {| world := w; pending := pending s; issued := issued s;
         unhandled := unhandled s ++ [e]; exited := Some 1%Z |}
  | (w, Exited code) =>
      {| world := w; pending := pending s; issued := issued s;
         unhandled := unhandled s; exited := Some code |}
  | (w, Suspended c k) =>
      {| world := w; pending := pending s ++ [(c, k)]; issued := issued s ++ [c];
         unhandled := unhandled s; exited := exited s |}
  end.

Definition isRunning (task : nat) (w : World) : bool :=
  match cronTasks w !! task with
  | Some t => running t
  | None => false
  end.

(** One turn of the event loop. A stopped task does not fire; a settled
    activation leaves the pending list and resumes; once the process has
    ended nothing runs. *)
Definition step (s : System) (ev : Event) : System :=
  match exited s with
  | Some _ => s
  | None =>
      match ev with
      | Client e => dispatch (listener e) s
      | CronFire task =>
          if isRunning task (world s) then dispatch cronCallback s else s
      | Settle activation result =>
          match pending s !! activation with
          | Some (_, k) =>
              dispatch (k result)
                {| world := world s; pending := delete activation (pending s);
                   issued := issued s; unhandled := unhandled s; exited := exited s |}
          | None => s
          end
      | Signal => dispatch onSignal s
      end
  end.

Definition steps (s : System) (evs : list Event) : System :=
  fold_left step evs s.

(** The process from [main] on: the exit code, or the system once
    [prayerBot.start()] has run to its first suspension. *)
Definition boot (environment : Env) (pollOptions : list string)
    (refusal : string -> string -> option Thrown) (date : Date) : Z + System :=
  match main environment pollOptions refusal date with
  | ExitBeforeConstruction code => inl code
  | Constructed w next =>
      inr (dispatch next
             {| world := w; pending := []; issued := []; unhandled := []; exited := None |})
  end.

Definition isPollSend (c : Call) : bool :=
  match c with
  | client_sendMessage _ (PollContent _) _ => true
  | _ => false
  end.

(** The poll sends in flight: issued to the transport and not yet settled. *)
Definition pollsInFlight (s : System) : nat :=
  length (List.filter (fun entry => isPollSend (fst entry)) (pending s)).

(** The cron tasks that will fire. *)
Definition runningTasks (w : World) : nat :=
  length (List.filter running (cronTasks w)).

(** 1 if the task the application refers to is running, else 0. *)
Definition referencedRunning (w : World) : nat :=
  match PrayerReminderBot.scheduledTask (prayerBot w) with
  | Some task => if isRunning task w then 1 else 0
  | None => 0
  end.

(** The two command tests of [onMessage]. *)
Definition isTriggerCommand (text : string) : bool :=
  String.eqb (toLowerCase text) "!prayer" || String.eqb (toLowerCase text) "!صلاة".

Definition isHelpCommand (text : string) : bool :=
  String.eqb (toLowerCase text) "!help" || String.eqb (toLowerCase text) "!مساعدة".

(** ** Vocabulary of the design document *)

(** The error a send throws outside the ready state. *)
Definition NotInitializedError : Thrown :=
  ErrorObj WhatsAppBot.notInitializedMessage.

(** The two errors [sendPoll] throws for an option count out of range. *)
Definition isValidationError (e : Thrown) : Prop :=
  e = ErrorObj "Poll must have at least 2 options" \/
  e = ErrorObj "Poll cannot have more than 12 options".

(** The five session states of the design document (section 4.2), for
    comparison with the code, which keeps one flag: [stateFlag] is the value
    [isInitialized] has in each state. *)
Inductive SpecSessionState : Type :=
| Uninitialized
| Authenticating
| Authenticated
| Ready
| Disconnected.

Definition stateFlag (st : SpecSessionState) : bool :=
  match st with
  | Ready => true
  | _ => false
  end.

(** What drives the session from one state to the next in the design
    document, and its transition table. *)
Inductive SpecTransition : Type :=
| callInitialize
| credentialSuccess
| credentialFailure (reason : string)
| transportReady
| transportDisconnect (reason : string).

Definition specSessionStep (st : SpecSessionState) (a : SpecTransition) : option SpecSessionState :=
  match st, a with
  | Uninitialized, callInitialize => Some Authenticating
  | Authenticating, credentialSuccess => Some Authenticated
  | Authenticating, credentialFailure _ => Some Uninitialized
  | Authenticated, transportReady => Some Ready
  | Ready, transportDisconnect _ => Some Disconnected
  | Disconnected, callInitialize => Some Authenticating
  | _, _ => None
  end.

(** The code that runs at each of them. *)
Definition transitionCode (a : SpecTransition) : Proc World unit :=
  match a with
  | callInitialize => start
  | credentialSuccess => listener authenticated
  | credentialFailure reason => listener (auth_failure reason)
  | transportReady => listener ready
  | transportDisconnect reason => listener (disconnected reason)
  end.

(** The dispatch of the recurring action, as the transport sees it. *)
Definition pollCall (w : World) : Call :=
  client_sendMessage
    (PrayerReminderBot.targetChatId (prayerBot w))
    (PollContent
       (mkPoll
          ("❤️ " +:+ numberToString (getDate (now w)) +:+ " " +:+
           getArabicMonth (getMonth (now w)))
          (POLL_OPTIONS w) true [1%Z]))
    None.

(** The continuation of a poll send: the acknowledgment, or the rejection
    wrapped by the [catch] of [sendPoll]. *)
Definition pollSettled (r : Settled) : Proc WhatsAppBot.t Message :=
  match r with
  | Fulfilled ack => Ret ack
  | Rejected reason => Throw (ErrorObj ("Failed to send poll: " +:+ errorMessage reason))
  end.

(** The option count [sendPoll] accepts. *)
Definition optionCountOk (n : nat) : bool :=
  negb (n <? 2)%nat && negb (12 <? n)%nat.

(** The first test of [onMessage]: a broadcast or newsletter sender. *)
Definition isPseudoSender (sender : string) : bool :=
  String.eqb sender "status@broadcast" || endsWith sender "@newsletter".

(** ** Invariants of suspended activations *)

(** [safeFrom R cur p]: started in state [cur], every state [p] writes is
    related by [R] to the state it replaces. After an [Await] the state is
    whatever the other activations made of it. *)
Fixpoint safeFrom {St A} (R : St -> St -> Prop) (cur : St) (p : Proc St A) : Prop :=
  match p with
  | Ret _ => True
  | Throw _ => True
  | Exit _ => True
  | Get k => safeFrom R cur (k cur)
  | Put s k => R cur s /\ safeFrom R s k
  | Await _ k => forall r cur', safeFrom R cur' (k r)
  end.

Definition safe {St A} (R : St -> St -> Prop) (p : Proc St A) : Prop :=
  forall cur, safeFrom R cur p.

(** The session flag of the second state is up only if that of the first is. *)
Definition flagNotRaised (b b' : WhatsAppBot.t) : Prop :=
  WhatsAppBot.isReady b' = true -> WhatsAppBot.isReady b = true.

Definition readyNotRaised (w w' : World) : Prop :=
  flagNotRaised (theBot w) (theBot w').

Definition notReady (w : World) : Prop :=
  WhatsAppBot.isReady (theBot w) = false.

(** Every suspended activation of [s], once resumed, leaves the session flag
    down if it finds it down. *)
Definition pendingKeepDown (s : System) : Prop :=
  Forall (fun entry => forall r, safe readyNotRaised (snd entry r)) (pending s).

Definition isReadyEvent (ev : Event) : bool :=
  match ev with
  | Client ready => true
  | _ => false
  end.

(** ** Sample data *)

(** The nine options the README lists for the daily poll. *)
Definition readmeOptions : list string :=
  [ "💕🌅 الفجر / الصبح"; "☀️ أذكار الصباح"; "🦋 الظهر"; "🏞️🖼️ العصر";
    "🦋🌆 المغرب"; "🧕🏽 أذكار المساء"; "🔵 العشاء"; "🌱 صلاوات فائتة";
    "⭐ قيام الليل" ].

Definition sampleEnv : Env :=
  {| TARGET_CHAT_ID := Some "201234567890@c.us"; CRON_PATTERN := None;
     TIMEZONE := None; TEST_MODE := None |}.

Definition sampleDate : Date := {| getDate := 27; getMonth := 9 |}.

Definition sampleAck : Settled := Fulfilled (mkMessage "201234567890@c.us" EmptyString).

(** node-cron on the values the examples use: it accepts the patterns
    [0 9 * * *] and [0 8 * * *] with the zones [Africa/Cairo] and
    [Asia/Riyadh], and is asked about [every day], which it refuses. The
    message of the error is a stand-in. *)
Definition sampleRefusal (pattern timezone : string) : option Thrown :=
  if (String.eqb pattern "0 9 * * *" || String.eqb pattern "0 8 * * *")
     && (String.eqb timezone "Africa/Cairo" || String.eqb timezone "Asia/Riyadh")
  then None
  else Some (ErrorObj "refused by node-cron").

(** The application constructed by [main] on [sampleEnv]. *)
Definition constructedWorld : World :=
  {| env := sampleEnv; POLL_OPTIONS := readmeOptions; cronRefusal := sampleRefusal;
     now := sampleDate;
     cronTasks := []; prayerBot := PrayerReminderBot.new "201234567890@c.us" |}.

(** The process when [main] awaits [prayerBot.start()]. *)
Definition bootedSystem : System :=
  dispatch start
    {| world := constructedWorld; pending := []; issued := [];
       unhandled := []; exited := None |}.

(** The process after [initialize()] resolved and the client reported
    [authenticated] and [ready]: the session is ready and task 0 is armed. *)
Definition readySystem : System :=
  steps bootedSystem [Settle 0 sampleAck; Client authenticated; Client ready].

(** The timer fires; while its send is in flight a chat member sends the
    trigger command. *)
Definition raceSystem : System :=
  steps readySystem [CronFire 0; Client (message {| from := "201111111111@c.us"; body := "!prayer" |})].

Definition prayerCommand : Message :=
  {| from := "201111111111@c.us"; body := "!Prayer" |}.


(** ** Further vocabulary *)

(** A string of decimal digits. *)
Fixpoint allDigits (s : string) : bool :=
  match s with
  | EmptyString => true
  | String c rest => WhatsAppBot.isDigit c && allDigits rest
  end.

(** The number of [@] characters of a string. *)
Fixpoint countAt (s : string) : nat :=
  match s with
  | EmptyString => 0
  | String c rest => (if Ascii.eqb c "@" then 1 else 0) + countAt rest
  end.

(** The [sendOptions] object [sendMessage] builds. *)
Definition sendOptionsOf (o : SendMessageOptions.t) : SendOptions :=
  {| mentions :=
       if SendMessageOptions.parseMentions o
       then Some (WhatsAppBot.parseMentions (SendMessageOptions.content o)
                    (SendMessageOptions.chatId o))
       else None;
     sendQuotedMessageId :=
       if truthy (SendMessageOptions.quotedMessageId o)
       then SendMessageOptions.quotedMessageId o else None |}.

(** The call [sendMessage] hands to the transport. *)
Definition messageCall (o : SendMessageOptions.t) : Call :=
  client_sendMessage (SendMessageOptions.chatId o)
    (Text (SendMessageOptions.content o)) (Some (sendOptionsOf o)).

(** The call [sendPoll] hands to the transport. *)
Definition pollCallOf (o : SendPollOptions.t) : Call :=
  client_sendMessage (SendPollOptions.chatId o)
    (PollContent
       (mkPoll (SendPollOptions.question o) (SendPollOptions.options o)
          (default false (SendPollOptions.allowMultipleAnswers o)) [1%Z]))
    None.

(** The shape of a mention: a non-empty run of digits, then [@c.us]. *)
Definition isMention (mention : string) : Prop :=
  exists digits,
    mention = digits +:+ "@c.us" /\ digits <> EmptyString /\ allDigits digits = true.

Definition startsWithDigit (s : string) : bool :=
  match s with
  | EmptyString => false
  | String c _ => WhatsAppBot.isDigit c
  end.

(** The environment of [sampleEnv] with the test flag set. *)
Definition testEnv : Env :=
  {| TARGET_CHAT_ID := Some "201234567890@c.us"; CRON_PATTERN := None;
     TIMEZONE := None; TEST_MODE := Some "true" |}.

(** The process of [testEnv] when the client is about to report [ready]. *)
Definition testSystem : System :=
  steps
    (dispatch start
       {| world :=
            {| env := testEnv; POLL_OPTIONS := readmeOptions;
               cronRefusal := sampleRefusal; now := sampleDate;
               cronTasks := []; prayerBot := PrayerReminderBot.new "201234567890@c.us" |};
          pending := []; issued := []; unhandled := []; exited := None |})
    [Settle 0 sampleAck; Client authenticated].

(** ** Invariants of whole runs *)

(** [obeys R C E cur p]: started in state [cur], every state [p] writes is
    related by [R] to the state it replaces, every call it awaits satisfies
    [C] in the state it is issued from, and it exits with a code in [E]
    only. After an [Await] the state is whatever the other activations made
    of it. *)
Fixpoint obeys {St A} (R : St -> St -> Prop) (C : St -> Call -> Prop)
    (E : Z -> Prop) (cur : St) (p : Proc St A) : Prop :=
  match p with
  | Ret _ => True
  | Throw _ => True
  | Exit code => E code
  | Get k => obeys R C E cur (k cur)
  | Put s k => R cur s /\ obeys R C E s k
  | Await c k => C cur c /\ forall r cur', obeys R C E cur' (k r)
  end.

(** [p] obeys from every state. *)
Definition obeysAlways {A} (R : World -> World -> Prop) (C : World -> Call -> Prop)
    (E : Z -> Prop) (p : Proc World A) : Prop :=
  forall cur, obeys R C E cur p.

(** What a relation on states, a predicate on calls and a set of exit codes
    must allow for the application to obey them: the writes and calls the
    handlers of [index.ts] make, and exit code 1 (a failed start, an
    unhandled rejection). Exit code 0 is asked for where a signal is
    delivered. *)
Record Suitable (R : World -> World -> Prop) (C : World -> Call -> Prop)
    (E : Z -> Prop) : Prop := mkSuitable {
  suit_refl : forall w, R w w;
  suit_trans : forall x y z, R x y -> R y z -> R x z;
  suit_flag : forall w b,
    R w (setPrayerBot (PrayerReminderBot.setBot b (prayerBot w)) w);
  suit_stop : forall w task,
    PrayerReminderBot.scheduledTask (prayerBot w) = Some task ->
    R w (setCronTasks (alter taskStop task (cronTasks w)) w);
  suit_schedule : forall w, R w (fst (run scheduleDailyPoll w));
  suit_initialize : forall w, C w client_initialize;
  suit_destroy : forall w, C w client_destroy;
  suit_ack : forall w m, C w (message_reply m pollSentReply);
  suit_help : forall w m, C w (message_reply m helpReply);
  suit_poll : forall w,
    WhatsAppBot.isReady (theBot w) = true ->
    optionCountOk (length (POLL_OPTIONS w)) = true ->
    C w (pollCall w);
  suit_exit1 : E 1%Z
}.

(** Every suspended activation of [s] obeys, from whatever state it
    resumes. *)
Definition pendingObey (R : World -> World -> Prop) (C : World -> Call -> Prop)
    (E : Z -> Prop) (s : System) : Prop :=
  Forall (fun entry => forall r cur, obeys R C E cur (snd entry r)) (pending s).

(** A call issued from a state that [R] relates to [w]. *)
Definition issuedFrom (R : World -> World -> Prop) (C : World -> Call -> Prop)
    (w : World) (c : Call) : Prop :=
  exists w', R w w' /\ C w' c.

(** The configuration does not change. *)
Definition sameConfig (w w' : World) : Prop :=
  env w' = env w /\ POLL_OPTIONS w' = POLL_OPTIONS w /\
  PrayerReminderBot.targetChatId (prayerBot w') = PrayerReminderBot.targetChatId (prayerBot w).

(** The calls the application makes: [initialize], [destroy], the poll of
    the state it is issued from (sent only with 2 to 12 options), and the
    two fixed replies. *)
Definition applicationCall (w : World) (c : Call) : Prop :=
  match c with
  | client_initialize => True
  | client_destroy => True
  | client_sendMessage _ _ _ =>
      c = pollCall w /\ optionCountOk (length (POLL_OPTIONS w)) = true
  | message_reply _ text => text = pollSentReply \/ text = helpReply
  end.

Definition exitCode (code : Z) : Prop := code = 0%Z \/ code = 1%Z.

(** [scheduledTask] refers to the task created last; it is unset only while
    no task exists. *)
Definition refersToLast (w : World) : Prop :=
  match PrayerReminderBot.scheduledTask (prayerBot w) with
  | Some task => S task = length (cronTasks w)
  | None => cronTasks w = []
  end.

(** A task with the pattern and time zone the environment configures. *)
Definition configuredTask (e : Env) (t : ScheduledTask) : Prop :=
  pattern t = orDefault (CRON_PATTERN e) "0 9 * * *" /\
  timezone t = orDefault (TIMEZONE e) "Africa/Cairo".

Definition tasksConfigured (w : World) : Prop :=
  Forall (configuredTask (env w)) (cronTasks w).

(** Every task of [w] is still there in [w'], with its pattern and time
    zone, and runs in [w'] only if it ran in [w]. *)
Definition tasksKept (w w' : World) : Prop :=
  forall i t, cronTasks w !! i = Some t ->
    exists t', cronTasks w' !! i = Some t' /\
               pattern t' = pattern t /\ timezone t' = timezone t /\
               (running t' = true -> running t = true).

(** A call of a process configured with environment [e] and options [o]:
    [initialize], [destroy], a poll of the options [o] (2 to 12 of them) to
    the configured target with multiple answers allowed and no send options,
    or one of the two fixed replies. *)
Definition configuredCall (e : Env) (o : list string) (c : Call) : Prop :=
  match c with
  | client_initialize => True
  | client_destroy => True
  | client_sendMessage chatId content options =>
      Some chatId = TARGET_CHAT_ID e /\ options = None /\
      (exists question, content = PollContent (mkPoll question o true [1%Z])) /\
      optionCountOk (length o) = true
  | message_reply _ text => text = pollSentReply \/ text = helpReply
  end.

Definition anyCall (w : World) (c : Call) : Prop := True.

Definition anyExit (code : Z) : Prop := True.

(** [P] once true stays true. *)
Definition keeps (P : World -> Prop) (w w' : World) : Prop := P w -> P w'.

(** The environment is the same and the tasks stay configured by it. *)
Definition keepsConfigured (w w' : World) : Prop :=
  env w' = env w /\ (tasksConfigured w -> tasksConfigured w').

(** An environment whose pattern node-cron refuses. *)
Definition refusedEnv : Env :=
  {| TARGET_CHAT_ID := Some "201234567890@c.us"; CRON_PATTERN := Some "every day";
     TIMEZONE := None; TEST_MODE := None |}.

(** The process of [refusedEnv] when [main] awaits [prayerBot.start()]. *)
Definition refusedSystem : System :=
  dispatch start
    {| world :=
         {| env := refusedEnv; POLL_OPTIONS := readmeOptions;
            cronRefusal := sampleRefusal; now := sampleDate;
            cronTasks := []; prayerBot := PrayerReminderBot.new "201234567890@c.us" |};
       pending := []; issued := []; unhandled := []; exited := None |}.

(** No state is constrained. *)
Definition anyWorlds (w w' : World) : Prop := True.

(** Exit code 1, or exit code 0 in a run where a signal is delivered. *)
Definition exitAfter (evs : list Event) (code : Z) : Prop :=
  code = 1%Z \/ (code = 0%Z /\ In Signal evs).
(** * Properties *)

(** ** The procedure monad *)

Lemma run_bind {St A B} (p : Proc St A) (f : A -> Proc St B) (s : St) :
  run (bind p f) s =
  match run p s with
  | (s', Done a) => run (f a) s'
  | (s', Failed e) => (s', Failed e)
  | (s', Exited code) => (s', Exited code)
  | (s', Suspended c k) => (s', Suspended c (fun r => bind (k r) f))
  end.
Proof.
  revert s. induction p as [a|e|code|k IH|s' k IH|c k IH]; intros s; simpl; auto.
Qed.

Lemma safeFrom_bind {St A B} (R : St -> St -> Prop) (p : Proc St A)
    (f : A -> Proc St B) (cur : St) :
  safeFrom R cur p -> (forall a, safe R (f a)) -> safeFrom R cur (bind p f).
Proof.
  revert cur. induction p as [a|e|code|k IH|s' k IH|c k IH]; simpl; intros cur Hp Hf; auto.
  - apply Hf.
  - destruct Hp as [Hs Hk]. split; auto.
Qed.

Lemma safe_bind {St A B} (R : St -> St -> Prop) (p : Proc St A) (f : A -> Proc St B) :
  safe R p -> (forall a, safe R (f a)) -> safe R (bind p f).
Proof. intros Hp Hf cur. apply safeFrom_bind; auto. Qed.

Lemma safe_tryCatch {St A} (R : St -> St -> Prop) (p : Proc St A)
    (h : Thrown -> Proc St A) :
  safe R p -> (forall e, safe R (h e)) -> safe R (tryCatch p h).
Proof.
  intros Hp Hh cur. specialize (Hp cur). revert cur Hp.
  induction p as [a|e|code|k IH|s' k IH|c k IH]; simpl; intros cur Hp; auto.
  - apply Hh.
  - destruct Hp as [Hs Hk]. split; auto.
Qed.

(** A method of the bot that is safe for the bot is safe for the world it
    lives in. *)
Lemma safe_onBot {A} (method : Proc WhatsAppBot.t A) :
  safe flagNotRaised method -> safe readyNotRaised (onBot method).
Proof.
  intros Hm cur. specialize (Hm (theBot cur)). revert cur Hm. unfold onBot.
  induction method as [a|e|code|k IH|s' k IH|c k IH]; simpl; intros cur Hm; auto.
  destruct Hm as [Hs Hk]. split.
  - destruct cur as [? ? ? ? ? [b ? ?]]. exact Hs.
  - apply IH. destruct cur as [? ? ? ? ? [b ? ?]]. exact Hk.
Qed.

(** Running a safe procedure relates the final state to the initial one
    (for a transitive [R]), and what it leaves suspended is safe. *)
Lemma safeFrom_run {St A} (R : St -> St -> Prop) (p : Proc St A) (cur : St) :
  (forall x, R x x) -> (forall x y z, R x y -> R y z -> R x z) ->
  safeFrom R cur p ->
  R cur (fst (run p cur)) /\
  (forall c k, snd (run p cur) = Suspended c k -> forall r, safe R (k r)).
Proof.
  intros Hrefl Htrans. revert cur.
  induction p as [a|e|code|k IH|s' k IH|c k IH]; simpl; intros cur Hp;
    try (split; [apply Hrefl | discriminate]).
  - apply IH; auto.
  - destruct Hp as [Hs Hk]. destruct (IH s' Hk) as [HR Hsusp]. split; eauto.
  - split; [apply Hrefl|]. intros c' k' Heq. injection Heq as -> ->.
    intros r cur'. apply Hp.
Qed.

(** ** WhatsAppBot: the guards of the send operations *)

Lemma sendPoll_not_ready (this : WhatsAppBot.t) (o : SendPollOptions.t) :
  WhatsAppBot.isReady this = false ->
  run (WhatsAppBot.sendPoll o) this = (this, Failed NotInitializedError).
Proof.
  destruct this as [flag]. simpl. intros ->. reflexivity.
Qed.

Lemma sendMessage_not_ready (this : WhatsAppBot.t) (o : SendMessageOptions.t) :
  WhatsAppBot.isReady this = false ->
  run (WhatsAppBot.sendMessage o) this = (this, Failed NotInitializedError).
Proof.
  destruct this as [flag]. simpl. intros ->. reflexivity.
Qed.

Lemma sendPoll_ready (this : WhatsAppBot.t) (o : SendPollOptions.t) :
  WhatsAppBot.isReady this = true ->
  optionCountOk (length (SendPollOptions.options o)) = true ->
  exists k,
    run (WhatsAppBot.sendPoll o) this =
      (this,
       Suspended
         (client_sendMessage (SendPollOptions.chatId o)
            (PollContent
               (mkPoll (SendPollOptions.question o) (SendPollOptions.options o)
                  (default false (SendPollOptions.allowMultipleAnswers o)) [1%Z]))
            None)
         k) /\
    forall r, k r = pollSettled r.
Proof.
  destruct this as [flag]. simpl. intros -> Hok.
  unfold optionCountOk in Hok. apply andb_prop in Hok as [Hlo Hhi].
  apply negb_true_iff in Hlo, Hhi.
  unfold WhatsAppBot.sendPoll. simpl. rewrite Hlo, Hhi. simpl.
  eexists. split; [reflexivity|]. intros [ack|reason]; reflexivity.
Qed.

Lemma sendPoll_too_few (this : WhatsAppBot.t) (o : SendPollOptions.t) :
  WhatsAppBot.isReady this = true ->
  (length (SendPollOptions.options o) < 2)%nat ->
  run (WhatsAppBot.sendPoll o) this =
    (this, Failed (ErrorObj "Poll must have at least 2 options")).
Proof.
  destruct this as [flag]. simpl. intros -> Hlen.
  apply Nat.ltb_lt in Hlen.
  unfold WhatsAppBot.sendPoll. simpl. rewrite Hlen. reflexivity.
Qed.

Lemma sendPoll_too_many (this : WhatsAppBot.t) (o : SendPollOptions.t) :
  WhatsAppBot.isReady this = true ->
  (12 < length (SendPollOptions.options o))%nat ->
  run (WhatsAppBot.sendPoll o) this =
    (this, Failed (ErrorObj "Poll cannot have more than 12 options")).
Proof.
  destruct this as [flag]. simpl. intros -> Hlen.
  assert (Hlo : (length (SendPollOptions.options o) <? 2)%nat = false)
    by (apply Nat.ltb_ge; lia).
  apply Nat.ltb_lt in Hlen.
  unfold WhatsAppBot.sendPoll. simpl. rewrite Hlo, Hlen. reflexivity.
Qed.

(** A procedure that fails before its first [Await] issues no call, whatever
    the transport would answer. *)
Lemma run_failed_exec {St A} (p : Proc St A) (s s' : St) (e : Thrown)
    (transport : list Call -> Call -> Settled) (calls : list Call) :
  run p s = (s', Failed e) ->
  exec transport calls p s = (s', calls, Threw e).
Proof.
  revert s. induction p as [a|e'|code|k IH|s0 k IH|c k IH]; simpl; intros s Hrun;
    try discriminate; auto.
  injection Hrun as -> ->. reflexivity.
Qed.

(** C6. For every options list of length below 2 or above 12, [sendPoll] on a
    ready session throws one of the two option-count errors before its
    first [await]: whatever the transport would answer, no call reaches it
    and the state of the bot is unchanged. *)
Theorem sendPoll_option_count_rejected
    (this : WhatsAppBot.t) (o : SendPollOptions.t)
    (transport : list Call -> Call -> Settled) :
  WhatsAppBot.isReady this = true ->
  (length (SendPollOptions.options o) < 2 \/ 12 < length (SendPollOptions.options o))%nat ->
  exists e,
    isValidationError e /\
    run (WhatsAppBot.sendPoll o) this = (this, Failed e) /\
    exec transport [] (WhatsAppBot.sendPoll o) this = (this, [], Threw e).
Proof.
  intros Hready [Hfew | Hmany].
  - exists (ErrorObj "Poll must have at least 2 options").
    pose proof (sendPoll_too_few this o Hready Hfew) as Hrun.
    split; [left; reflexivity|]. split; [exact Hrun|].
    apply run_failed_exec. exact Hrun.
  - exists (ErrorObj "Poll cannot have more than 12 options").
    pose proof (sendPoll_too_many this o Hready Hmany) as Hrun.
    split; [right; reflexivity|]. split; [exact Hrun|].
    apply run_failed_exec. exact Hrun.
Qed.

Lemma sendPoll_option_count_rejected_witness :
  exists e,
    isValidationError e /\
    run (WhatsAppBot.sendPoll
           (SendPollOptions.mk "201234567890@c.us" "q" ["only"] None))
        (WhatsAppBot.mk true) = (WhatsAppBot.mk true, Failed e) /\
    exec (fun _ _ => sampleAck) []
         (WhatsAppBot.sendPoll
            (SendPollOptions.mk "201234567890@c.us" "q" ["only"] None))
         (WhatsAppBot.mk true) = (WhatsAppBot.mk true, [], Threw e).
Proof.
  apply (sendPoll_option_count_rejected (WhatsAppBot.mk true)
           (SendPollOptions.mk "201234567890@c.us" "q" ["only"] None)
           (fun _ _ => sampleAck)).
  - reflexivity.
  - left. simpl. lia.
Defined.

(** C2, as stated, fails: with an empty options list and a session that is
    not ready, [sendPoll] throws the not-initialized error, which is not an
    option-count error; and with a ready session, two options and an empty
    target it throws nothing and hands the poll to the transport. *)
Lemma sendPoll_order_counterexample :
  run (WhatsAppBot.sendPoll (SendPollOptions.mk "201234567890@c.us" "q" [] None))
      WhatsAppBot.new
    = (WhatsAppBot.new, Failed NotInitializedError) /\
  ~ isValidationError NotInitializedError /\
  exec (fun _ _ => sampleAck) []
       (WhatsAppBot.sendPoll (SendPollOptions.mk EmptyString "q" ["a"; "b"] None))
       (WhatsAppBot.mk true)
    = (WhatsAppBot.mk true,
       [client_sendMessage EmptyString (PollContent (mkPoll "q" ["a"; "b"] false [1%Z])) None],
       Returned (mkMessage "201234567890@c.us" EmptyString)).
Proof.
  split; [reflexivity|]. split; [|reflexivity].
  intros [H | H]; discriminate H.
Qed.

(** C2, amended. [sendPoll] checks in this order: first that the session is
    ready (else the not-initialized error, whatever the options), then that
    there are at least 2 options, then that there are at most 12; it makes
    no check of the target, and with 2 to 12 options on a ready session it
    hands the poll to the transport for any target. *)
Theorem sendPoll_validation_order (this : WhatsAppBot.t) (o : SendPollOptions.t) :
  (WhatsAppBot.isReady this = false ->
   run (WhatsAppBot.sendPoll o) this = (this, Failed NotInitializedError)) /\
  (WhatsAppBot.isReady this = true ->
   (length (SendPollOptions.options o) < 2)%nat ->
   run (WhatsAppBot.sendPoll o) this =
     (this, Failed (ErrorObj "Poll must have at least 2 options"))) /\
  (WhatsAppBot.isReady this = true ->
   (12 < length (SendPollOptions.options o))%nat ->
   run (WhatsAppBot.sendPoll o) this =
     (this, Failed (ErrorObj "Poll cannot have more than 12 options"))) /\
  (WhatsAppBot.isReady this = true ->
   (2 <= length (SendPollOptions.options o) <= 12)%nat ->
   exists k,
     run (WhatsAppBot.sendPoll o) this =
       (this,
        Suspended
          (client_sendMessage (SendPollOptions.chatId o)
             (PollContent
                (mkPoll (SendPollOptions.question o) (SendPollOptions.options o)
                   (default false (SendPollOptions.allowMultipleAnswers o)) [1%Z]))
             None)
          k) /\
     forall r, k r = pollSettled r).
Proof.
  split; [apply sendPoll_not_ready|].
  split; [apply sendPoll_too_few|].
  split; [apply sendPoll_too_many|].
  intros Hready [Hlo Hhi]. apply sendPoll_ready; [exact Hready|].
  unfold optionCountOk. apply andb_true_intro. split; apply negb_true_iff.
  - apply Nat.ltb_ge. lia.
  - apply Nat.ltb_ge. lia.
Qed.

Lemma sendPoll_validation_order_witness :
  run (WhatsAppBot.sendPoll (SendPollOptions.mk EmptyString "q" [] None)) WhatsAppBot.new
    = (WhatsAppBot.new, Failed NotInitializedError) /\
  run (WhatsAppBot.sendPoll (SendPollOptions.mk EmptyString "q" [] None)) (WhatsAppBot.mk true)
    = (WhatsAppBot.mk true, Failed (ErrorObj "Poll must have at least 2 options")).
Proof.
  split.
  - apply (proj1 (sendPoll_validation_order WhatsAppBot.new
                    (SendPollOptions.mk EmptyString "q" [] None))).
    reflexivity.
  - apply (proj1 (proj2 (sendPoll_validation_order (WhatsAppBot.mk true)
                           (SendPollOptions.mk EmptyString "q" [] None)))).
    + reflexivity.
    + simpl. lia.
Defined.

(** ** The session flag is raised by the ready listener only *)

Lemma flagNotRaised_refl (b : WhatsAppBot.t) : flagNotRaised b b.
Proof. unfold flagNotRaised. auto. Qed.

Lemma readyNotRaised_refl (w : World) : readyNotRaised w w.
Proof. apply flagNotRaised_refl. Qed.

Lemma readyNotRaised_trans (x y z : World) :
  readyNotRaised x y -> readyNotRaised y z -> readyNotRaised x z.
Proof. unfold readyNotRaised, flagNotRaised. auto. Qed.

Lemma await_safe {St} (R : St -> St -> Prop) (c : Call) : safe R (await c).
Proof. intros cur r cur'. destruct r; exact I. Qed.

Lemma ret_safe {St A} (R : St -> St -> Prop) (a : A) : safe R (Ret a : Proc St A).
Proof. intros cur. exact I. Qed.

Lemma safe_Get {St A} (R : St -> St -> Prop) (k : St -> Proc St A) :
  (forall s, safe R (k s)) -> safe R (Get k).
Proof. intros Hk cur. apply Hk. Qed.

Lemma sendPoll_safe (o : SendPollOptions.t) :
  safe flagNotRaised (WhatsAppBot.sendPoll o).
Proof.
  intros cur. unfold WhatsAppBot.sendPoll. simpl.
  destruct (WhatsAppBot.isInitialized cur); simpl; [|exact I].
  destruct (length (SendPollOptions.options o) <? 2)%nat; simpl; [exact I|].
  destruct (12 <? length (SendPollOptions.options o))%nat; simpl; [exact I|].
  intros r cur'. destruct r; exact I.
Qed.

Lemma sendDailyPrayerPoll_safe : safe readyNotRaised sendDailyPrayerPoll.
Proof.
  unfold sendDailyPrayerPoll. apply safe_tryCatch; [|intros e; apply ret_safe].
  apply safe_Get. intros w.
  apply safe_bind; [|intros a; apply ret_safe].
  apply safe_onBot. apply sendPoll_safe.
Qed.

Lemma stopScheduledTasks_safe : safe readyNotRaised stopScheduledTasks.
Proof.
  intros cur. unfold stopScheduledTasks. simpl.
  destruct (PrayerReminderBot.scheduledTask (prayerBot cur)); simpl; [|exact I].
  split; [|exact I]. unfold readyNotRaised, theBot. simpl. apply flagNotRaised_refl.
Qed.

Lemma scheduleDailyPoll_safe : safe readyNotRaised scheduleDailyPoll.
Proof.
  intros cur. unfold scheduleDailyPoll. simpl.
  destruct (cronRefusal cur _ _); simpl; [exact I|].
  split; [|exact I]. unfold readyNotRaised, theBot. simpl. apply flagNotRaised_refl.
Qed.

Lemma onReady_safe : safe readyNotRaised onReady.
Proof.
  unfold onReady. apply safe_bind.
  - apply safe_tryCatch; [|intros e; apply ret_safe].
    apply safe_onBot. intros cur. simpl.
    destruct (WhatsAppBot.isInitialized cur); exact I.
  - intros _. apply safe_bind; [apply scheduleDailyPoll_safe|].
    intros _ cur. simpl.
    destruct (strictEq (TEST_MODE (env cur)) "true");
      [apply sendDailyPrayerPoll_safe | exact I].
Qed.

Lemma onMessage_safe (m : Message) : safe readyNotRaised (onMessage m).
Proof.
  unfold onMessage.
  destruct (_ || _); [apply ret_safe|].
  destruct (_ || _).
  - apply safe_bind; [apply sendDailyPrayerPoll_safe|]. intros _.
    apply safe_bind; [apply await_safe | intros a; apply ret_safe].
  - destruct (_ || _); [|apply ret_safe].
    apply safe_bind; [apply await_safe | intros a; apply ret_safe].
Qed.

Lemma stop_safe : safe readyNotRaised stop.
Proof.
  unfold stop. apply safe_bind; [apply stopScheduledTasks_safe|]. intros _.
  apply safe_onBot. intros cur r cur'. destruct r; simpl; [|exact I].
  split; [|exact I]. unfold flagNotRaised. simpl. discriminate.
Qed.

Lemma onSignal_safe : safe readyNotRaised onSignal.
Proof.
  unfold onSignal. apply safe_bind; [apply stop_safe|]. intros _ cur. exact I.
Qed.

Lemma start_safe : safe readyNotRaised start.
Proof.
  unfold start. apply safe_tryCatch; [|intros e cur; exact I].
  apply safe_onBot. intros cur r cur'. destruct r; exact I.
Qed.

Lemma listener_safe (e : ClientEvent) :
  e <> ready -> safe readyNotRaised (listener e).
Proof.
  destruct e as [code| |msg| |m|reason]; intros Hne.
  - apply ret_safe.
  - apply ret_safe.
  - apply ret_safe.
  - congruence.
  - apply onMessage_safe.
  - unfold listener. apply safe_bind; [|intros _; apply stopScheduledTasks_safe].
    apply safe_onBot. intros cur. simpl. split; [|exact I].
    unfold flagNotRaised. simpl. discriminate.
Qed.

(** The ready listener raises the flag and then runs [onReady]. *)
Lemma run_listener_ready (w : World) :
  run (listener ready) w =
  run onReady
    (setPrayerBot (PrayerReminderBot.setBot (WhatsAppBot.mk true) (prayerBot w)) w).
Proof. reflexivity. Qed.

Lemma safe_tail (p : Proc World unit) (w : World) (c : Call)
    (k : Settled -> Proc World unit) :
  safe readyNotRaised p -> snd (run p w) = Suspended c k ->
  forall r, safe readyNotRaised (k r).
Proof.
  intros Hp.
  destruct (safeFrom_run readyNotRaised p w readyNotRaised_refl
              readyNotRaised_trans (Hp w)) as [_ Htail].
  apply Htail.
Qed.

Lemma safe_world (p : Proc World unit) (w : World) :
  safe readyNotRaised p -> readyNotRaised w (fst (run p w)).
Proof.
  intros Hp.
  destruct (safeFrom_run readyNotRaised p w readyNotRaised_refl
              readyNotRaised_trans (Hp w)) as [HR _].
  exact HR.
Qed.

Lemma dispatch_world (p : Proc World unit) (s : System) :
  world (dispatch p s) = fst (run p (world s)).
Proof.
  unfold dispatch. destruct (run p (world s)) as [w [a|e|code|c k]]; reflexivity.
Qed.

Lemma dispatch_pendingKeepDown (p : Proc World unit) (s : System) :
  (forall c k, snd (run p (world s)) = Suspended c k ->
               forall r, safe readyNotRaised (k r)) ->
  pendingKeepDown s -> pendingKeepDown (dispatch p s).
Proof.
  unfold pendingKeepDown, dispatch. intros Htail Hs.
  destruct (run p (world s)) as [w [a|e|code|c k]]; simpl in *; auto.
  apply Forall_app. split; [exact Hs|].
  constructor; [|constructor]. simpl. apply (Htail c k). reflexivity.
Qed.

(** Every event keeps the suspended activations safe. *)
Lemma step_pendingKeepDown (s : System) (ev : Event) :
  pendingKeepDown s -> pendingKeepDown (step s ev).
Proof.
  intros Hs. unfold step. destruct (exited s); [exact Hs|].
  destruct ev as [e|task|activation result|].
  - apply dispatch_pendingKeepDown; [|exact Hs]. intros c k.
    assert (He : e = ready \/ e <> ready)
      by (destruct e; first [left; reflexivity | right; discriminate]).
    destruct He as [->|Hne].
    + rewrite run_listener_ready. apply safe_tail, onReady_safe.
    + apply safe_tail, listener_safe, Hne.
  - destruct (isRunning task (world s)); [|exact Hs].
    apply dispatch_pendingKeepDown; [|exact Hs]. intros c k.
    apply safe_tail, sendDailyPrayerPoll_safe.
  - destruct (pending s !! activation) as [[c0 k0]|] eqn:Hlook; [|exact Hs].
    apply dispatch_pendingKeepDown.
    + intros c k. simpl. apply safe_tail.
      unfold pendingKeepDown in Hs. rewrite Forall_lookup in Hs.
      apply (Hs activation (c0, k0) Hlook).
    + unfold pendingKeepDown in *. simpl. apply Forall_delete. exact Hs.
  - apply dispatch_pendingKeepDown; [|exact Hs]. intros c k.
    apply safe_tail, onSignal_safe.
Qed.

(** No event but [ready] raises the session flag. *)
Lemma step_notReady (s : System) (ev : Event) :
  pendingKeepDown s -> isReadyEvent ev = false ->
  notReady (world s) -> notReady (world (step s ev)).
Proof.
  intros Hs Hev Hdown. unfold step. destruct (exited s); [exact Hdown|].
  assert (Hkeep : forall p s0, safe readyNotRaised p -> notReady (world s0) ->
                               notReady (world (dispatch p s0))).
  { intros p s0 Hp Hdown0. rewrite dispatch_world.
    pose proof (safe_world p (world s0) Hp) as HR.
    unfold readyNotRaised, flagNotRaised, notReady in *.
    destruct (WhatsAppBot.isReady (theBot (fst (run p (world s0))))); [|reflexivity].
    rewrite HR in Hdown0; [discriminate | reflexivity]. }
  destruct ev as [e|task|activation result|].
  - apply Hkeep; [|exact Hdown]. apply listener_safe.
    intros ->. discriminate Hev.
  - destruct (isRunning task (world s)); [|exact Hdown].
    apply Hkeep; [apply sendDailyPrayerPoll_safe | exact Hdown].
  - destruct (pending s !! activation) as [[c0 k0]|] eqn:Hlook; [|exact Hdown].
    apply Hkeep; [|exact Hdown].
    unfold pendingKeepDown in Hs. rewrite Forall_lookup in Hs.
    apply (Hs activation (c0, k0) Hlook).
  - apply Hkeep; [apply onSignal_safe | exact Hdown].
Qed.

Lemma steps_pendingKeepDown (evs : list Event) (s : System) :
  pendingKeepDown s -> pendingKeepDown (steps s evs).
Proof.
  revert s. induction evs as [|ev evs IH]; intros s Hs; simpl; [exact Hs|].
  apply IH, step_pendingKeepDown, Hs.
Qed.

Lemma steps_notReady (evs : list Event) (s : System) :
  pendingKeepDown s -> forallb (fun ev => negb (isReadyEvent ev)) evs = true ->
  notReady (world s) -> notReady (world (steps s evs)).
Proof.
  revert s. induction evs as [|ev evs IH]; intros s Hs Hevs Hdown; simpl; [exact Hdown|].
  simpl in Hevs. apply andb_prop in Hevs as [Hev Hevs].
  apply negb_true_iff in Hev.
  apply IH; [apply step_pendingKeepDown, Hs | exact Hevs |].
  apply step_notReady; assumption.
Qed.

Lemma steps_app (s : System) (evs1 evs2 : list Event) :
  steps s (evs1 ++ evs2) = steps (steps s evs1) evs2.
Proof. unfold steps. apply fold_left_app. Qed.

Lemma boot_pendingKeepDown (environment : Env) (pollOptions : list string)
    (refusal : string -> string -> option Thrown) (date : Date) (s : System) :
  boot environment pollOptions refusal date = inr s -> pendingKeepDown s.
Proof.
  unfold boot, main.
  destruct (TARGET_CHAT_ID environment) as [target|]; [|discriminate].
  destruct (String.eqb target EmptyString); [discriminate|].
  intros Heq. injection Heq as <-.
  apply dispatch_pendingKeepDown; [|constructor].
  intros c k. apply safe_tail, start_safe.
Qed.

(** The disconnect listener puts the flag down. *)
Lemma disconnected_notReady (s : System) (reason : string) :
  exited s = None -> notReady (world (step s (Client (disconnected reason)))).
Proof.
  intros Hrun. unfold step. rewrite Hrun. rewrite dispatch_world.
  unfold notReady, theBot. simpl.
  destruct (PrayerReminderBot.scheduledTask (prayerBot (world s))); reflexivity.
Qed.

(** The flag follows the session states of the design: along every
    transition of its table, the code that runs leaves [isInitialized] at
    the value of the next state. *)
Lemma lifecycle_tracks_flag (st st' : SpecSessionState) (a : SpecTransition) (w : World) :
  specSessionStep st a = Some st' ->
  WhatsAppBot.isReady (theBot w) = stateFlag st ->
  WhatsAppBot.isReady (theBot (fst (run (transitionCode a) w))) = stateFlag st'.
Proof.
  destruct w as [e o refusal d tasks [[flag] target sched]].
  unfold theBot. simpl.
  destruct st, a; simpl; intros Hstep Hflag; try discriminate;
    injection Hstep as <-; simpl; try exact Hflag.
  - destruct (refusal _ _); simpl; [reflexivity|].
    destruct (strictEq (TEST_MODE e) "true"); [|reflexivity].
    unfold sendDailyPrayerPoll. simpl.
    destruct (length o <? 2)%nat; [reflexivity|].
    destruct (12 <? length o)%nat; reflexivity.
  - destruct sched; reflexivity.
Qed.

Lemma sendMessage_returns_ready (this this' : WhatsAppBot.t) (o : SendMessageOptions.t)
    (transport : list Call -> Call -> Settled) (calls : list Call) (ack : Message) :
  exec transport [] (WhatsAppBot.sendMessage o) this = (this', calls, Returned ack) ->
  WhatsAppBot.isReady this = true.
Proof.
  destruct (WhatsAppBot.isReady this) eqn:Hflag; [reflexivity|].
  rewrite (run_failed_exec _ _ _ _ transport [] (sendMessage_not_ready this o Hflag)).
  discriminate.
Qed.

Lemma sendPoll_returns_ready (this this' : WhatsAppBot.t) (o : SendPollOptions.t)
    (transport : list Call -> Call -> Settled) (calls : list Call) (ack : Message) :
  exec transport [] (WhatsAppBot.sendPoll o) this = (this', calls, Returned ack) ->
  WhatsAppBot.isReady this = true.
Proof.
  destruct (WhatsAppBot.isReady this) eqn:Hflag; [reflexivity|].
  rewrite (run_failed_exec _ _ _ _ transport [] (sendPoll_not_ready this o Hflag)).
  discriminate.
Qed.

(** C3. In every session state other than Ready, [sendMessage] and
    [sendPoll] throw the not-initialized error before anything reaches the
    transport (nothing is sent, nothing is kept for later); a send returns an
    acknowledgment only if the session is ready; and in every run of the
    process, from a disconnect event until the next ready event the session
    is not ready, so that both sends keep failing. *)
Theorem send_requires_ready :
  (forall (st : SpecSessionState) (this : WhatsAppBot.t)
          (transport : list Call -> Call -> Settled)
          (om : SendMessageOptions.t) (op : SendPollOptions.t),
     st <> Ready -> WhatsAppBot.isReady this = stateFlag st ->
     exec transport [] (WhatsAppBot.sendMessage om) this
       = (this, [], Threw NotInitializedError) /\
     exec transport [] (WhatsAppBot.sendPoll op) this
       = (this, [], Threw NotInitializedError)) /\
  (forall (this this' : WhatsAppBot.t) (transport : list Call -> Call -> Settled)
          (om : SendMessageOptions.t) (op : SendPollOptions.t)
          (calls : list Call) (ack : Message),
     exec transport [] (WhatsAppBot.sendMessage om) this = (this', calls, Returned ack) \/
     exec transport [] (WhatsAppBot.sendPoll op) this = (this', calls, Returned ack) ->
     WhatsAppBot.isReady this = true) /\
  (forall (environment : Env) (pollOptions : list string)
          (refusal : string -> string -> option Thrown) (date : Date)
          (s0 : System) (before after : list Event) (reason : string)
          (transport : list Call -> Call -> Settled)
          (om : SendMessageOptions.t) (op : SendPollOptions.t),
     boot environment pollOptions refusal date = inr s0 ->
     exited (steps s0 before) = None ->
     forallb (fun ev => negb (isReadyEvent ev)) after = true ->
     let s := steps s0 (before ++ Client (disconnected reason) :: after) in
     WhatsAppBot.isReady (theBot (world s)) = false /\
     exec transport [] (WhatsAppBot.sendMessage om) (theBot (world s))
       = (theBot (world s), [], Threw NotInitializedError) /\
     exec transport [] (WhatsAppBot.sendPoll op) (theBot (world s))
       = (theBot (world s), [], Threw NotInitializedError)).
Proof.
  split; [|split].
  - intros st this transport om op Hst Hflag.
    assert (Hdown : WhatsAppBot.isReady this = false)
      by (rewrite Hflag; destruct st; try reflexivity; congruence).
    split; apply run_failed_exec;
      [apply sendMessage_not_ready | apply sendPoll_not_ready]; exact Hdown.
  - intros this this' transport om op calls ack [H | H].
    + eapply sendMessage_returns_ready; exact H.
    + eapply sendPoll_returns_ready; exact H.
  - intros environment pollOptions refusal date s0 before after reason transport om op
      Hboot Hlive Hafter s.
    assert (Hdown : notReady (world s)).
    { subst s. rewrite steps_app. simpl.
      apply steps_notReady; [| exact Hafter |].
      - apply step_pendingKeepDown, steps_pendingKeepDown.
        eapply boot_pendingKeepDown; exact Hboot.
      - apply disconnected_notReady. exact Hlive. }
    split; [exact Hdown|].
    split; apply run_failed_exec;
      [apply sendMessage_not_ready | apply sendPoll_not_ready]; exact Hdown.
Qed.

Lemma send_requires_ready_witness :
  (exec (fun _ _ => sampleAck) []
        (WhatsAppBot.sendMessage
           (SendMessageOptions.mk "201234567890@c.us" "salam" false None))
        WhatsAppBot.new
     = (WhatsAppBot.new, [], Threw NotInitializedError) /\
   exec (fun _ _ => sampleAck) []
        (WhatsAppBot.sendPoll
           (SendPollOptions.mk "201234567890@c.us" "q" ["a"; "b"] None))
        WhatsAppBot.new
     = (WhatsAppBot.new, [], Threw NotInitializedError)) /\
  WhatsAppBot.isReady
    (theBot (world (steps bootedSystem
       ([Settle 0 sampleAck; Client authenticated; Client ready]
        ++ Client (disconnected "LOGOUT") :: [CronFire 0; Client (message prayerCommand)]))))
    = false.
Proof.
  split.
  - apply (proj1 send_requires_ready Disconnected WhatsAppBot.new
             (fun _ _ => sampleAck)
             (SendMessageOptions.mk "201234567890@c.us" "salam" false None)
             (SendPollOptions.mk "201234567890@c.us" "q" ["a"; "b"] None)).
    + discriminate.
    + reflexivity.
  - apply (proj2 (proj2 send_requires_ready) sampleEnv readmeOptions sampleRefusal sampleDate
             bootedSystem [Settle 0 sampleAck; Client authenticated; Client ready]
             [CronFire 0; Client (message prayerCommand)] "LOGOUT"
             (fun _ _ => sampleAck)
             (SendMessageOptions.mk "201234567890@c.us" "salam" false None)
             (SendPollOptions.mk "201234567890@c.us" "q" ["a"; "b"] None)).
    + reflexivity.
    + reflexivity.
    + reflexivity.
Defined.

(** ** The disconnect event *)

(** C4, as stated, fails: in the process that is ready with its daily
    schedule armed, the disconnect event stops the scheduled task. *)
Lemma disconnect_disarms_counterexample :
  isRunning 0 (world readySystem) = true /\
  isRunning 0 (world (step readySystem (Client (disconnected "LOGOUT")))) = false.
Proof. split; reflexivity. Qed.

(** C4, amended. A disconnect event delivered to the live process puts the
    session flag down and stops the scheduled task the application refers to
    (if it has one); nothing else changes: the environment, the target, the
    reference to the task, the other tasks, the suspended activations and
    the calls issued are the same, the process has not exited, and the
    sends fail from then on. *)
Theorem disconnect_effect (s : System) (reason : string) :
  exited s = None ->
  let s' := step s (Client (disconnected reason)) in
  WhatsAppBot.isReady (theBot (world s')) = false /\
  cronTasks (world s') =
    match PrayerReminderBot.scheduledTask (prayerBot (world s)) with
    | Some task => alter taskStop task (cronTasks (world s))
    | None => cronTasks (world s)
    end /\
  (forall task, PrayerReminderBot.scheduledTask (prayerBot (world s)) = Some task ->
                isRunning task (world s') = false) /\
  (forall task, PrayerReminderBot.scheduledTask (prayerBot (world s)) <> Some task ->
                isRunning task (world s') = isRunning task (world s)) /\
  PrayerReminderBot.scheduledTask (prayerBot (world s'))
    = PrayerReminderBot.scheduledTask (prayerBot (world s)) /\
  PrayerReminderBot.targetChatId (prayerBot (world s'))
    = PrayerReminderBot.targetChatId (prayerBot (world s)) /\
  env (world s') = env (world s) /\
  POLL_OPTIONS (world s') = POLL_OPTIONS (world s) /\
  now (world s') = now (world s) /\
  pending s' = pending s /\
  issued s' = issued s /\
  unhandled s' = unhandled s /\
  exited s' = None /\
  (forall transport op,
     exec transport [] (WhatsAppBot.sendPoll op) (theBot (world s'))
       = (theBot (world s'), [], Threw NotInitializedError)).
Proof.
  intros Hlive s'. subst s'. unfold step. rewrite Hlive.
  destruct s as [[e o refusal d tasks [[flag] target sched]] pend iss unh ex].
  simpl in Hlive. subst ex.
  unfold dispatch, isRunning, theBot. simpl.
  destruct sched as [task|]; simpl.
  - repeat split; try reflexivity.
    + intros task' Heq. injection Heq as <-.
      rewrite list_lookup_alter_eq. destruct (tasks !! task); reflexivity.
    + intros task' Hne. rewrite list_lookup_alter_ne; [reflexivity | congruence].
  - repeat split; try reflexivity. intros task' Heq. discriminate Heq.
Qed.

Lemma disconnect_effect_witness :
  WhatsAppBot.isReady
    (theBot (world (step readySystem (Client (disconnected "LOGOUT"))))) = false /\
  exited (step readySystem (Client (disconnected "LOGOUT"))) = None.
Proof.
  pose proof (disconnect_effect readySystem "LOGOUT" eq_refl) as H.
  split; [apply H | apply H].
Defined.

(** ** Arming and disarming the schedule *)

Lemma filter_running_alter_stop (tasks : list ScheduledTask) (task : nat) :
  length (List.filter running tasks) =
  length (List.filter running (alter taskStop task tasks)) +
  match tasks !! task with
  | Some t => if running t then 1 else 0
  | None => 0
  end.
Proof.
  revert task. induction tasks as [|t tasks IH]; intros task; [reflexivity|].
  destruct task as [|task]; simpl.
  - destruct (running t); simpl; lia.
  - specialize (IH task).
    change (alter taskStop task tasks) with (list_alter taskStop task tasks) in IH.
    destruct (running t); simpl; lia.
Qed.

Lemma alter_taskStop_twice (tasks : list ScheduledTask) (task : nat) :
  alter taskStop task (alter taskStop task tasks) = alter taskStop task tasks.
Proof.
  revert task. induction tasks as [|t tasks IH]; intros task; [reflexivity|].
  destruct task as [|task]; simpl; [reflexivity|].
  f_equal. apply IH.
Qed.

(** Dispatching the recurring action leaves the application state as it
    is. *)
Lemma run_sendDailyPrayerPoll_world (w : World) :
  fst (run sendDailyPrayerPoll w) = w.
Proof.
  destruct w as [e o refusal d tasks [[flag] target sched]].
  unfold sendDailyPrayerPoll. simpl. destruct flag; simpl; [|reflexivity].
  destruct (length o <? 2)%nat; [reflexivity|].
  destruct (12 <? length o)%nat; reflexivity.
Qed.

(** What [scheduleDailyPoll] creates when node-cron accepts the pattern and
    the time zone. *)
Lemma run_scheduleDailyPoll (w : World) :
  cronRefusal w (configuredPattern (env w)) (configuredTimezone (env w)) = None ->
  run scheduleDailyPoll w =
  (setPrayerBot
     (PrayerReminderBot.setScheduledTask (Some (length (cronTasks w))) (prayerBot w))
     (setCronTasks
        (cronTasks w ++
         [ {| pattern := orDefault (CRON_PATTERN (env w)) "0 9 * * *";
              timezone := orDefault (TIMEZONE (env w)) "Africa/Cairo";
              running := true |} ])%list
        w),
   Done tt).
Proof. intros Hacc. unfold scheduleDailyPoll. simpl. rewrite Hacc. reflexivity. Qed.

(** When node-cron refuses, its error is thrown and nothing is written. *)
Lemma run_scheduleDailyPoll_refused (w : World) (error : Thrown) :
  cronRefusal w (configuredPattern (env w)) (configuredTimezone (env w)) = Some error ->
  run scheduleDailyPoll w = (w, Failed error).
Proof. intros Href. unfold scheduleDailyPoll. simpl. rewrite Href. reflexivity. Qed.

(** The ready handler arms the schedule and changes nothing else. *)
Lemma run_onReady_world (w : World) :
  fst (run onReady w) = fst (run scheduleDailyPoll w).
Proof.
  destruct w as [e o refusal d tasks [[flag] target sched]].
  unfold onReady. simpl.
  destruct flag; simpl;
    (destruct (refusal _ _); simpl; [reflexivity|]);
    (destruct (strictEq (TEST_MODE e) "true"); [|reflexivity]);
    apply run_sendDailyPrayerPoll_world.
Qed.

(** The disconnect event leaves the environment and node-cron as they are. *)
Lemma disconnected_config (s : System) (reason : string) :
  env (world (step s (Client (disconnected reason)))) = env (world s) /\
  cronRefusal (world (step s (Client (disconnected reason)))) = cronRefusal (world s).
Proof.
  unfold step. destruct (exited s); [split; reflexivity|].
  rewrite dispatch_world. simpl.
  destruct (PrayerReminderBot.scheduledTask (prayerBot (world s))); split; reflexivity.
Qed.

Lemma disconnected_exited (s : System) (reason : string) :
  exited s = None -> exited (step s (Client (disconnected reason))) = None.
Proof.
  intros Hlive. unfold step. rewrite Hlive. unfold dispatch. simpl.
  destruct (PrayerReminderBot.scheduledTask (prayerBot (world s))); simpl; exact Hlive.
Qed.

(** C5, as stated, fails: with task 0 armed, [scheduleDailyPoll] returns
    normally and two tasks run; so does the process on a second ready
    event. *)
Lemma rearm_counterexample :
  isRunning 0 (world readySystem) = true /\
  snd (run scheduleDailyPoll (world readySystem)) = Done tt /\
  runningTasks (fst (run scheduleDailyPoll (world readySystem))) = 2 /\
  runningTasks (world (step readySystem (Client ready))) = 2 /\
  unhandled (step readySystem (Client ready)) = [].
Proof. repeat split; reflexivity. Qed.

(** C5, amended. Arming again does not fail on that account: there is no
    test of an armed schedule and no [InvalidStateError]. Armed or not,
    [scheduleDailyPoll] throws only what node-cron throws for a pattern or
    time zone it refuses, and then writes nothing; when node-cron accepts
    them it returns normally, creates a running task with the configured
    pattern and time zone, and makes [scheduledTask] refer to it. One
    schedule is armed afterwards when none was running before the call; on a
    ready event that follows a disconnect event, with a pattern and time
    zone node-cron accepts, that is the case provided no task other than
    the one referred to was running before the disconnect. *)
Theorem scheduleDailyPoll_rearm :
  (forall w : World,
     cronRefusal w (configuredPattern (env w)) (configuredTimezone (env w)) = None ->
     let w' := fst (run scheduleDailyPoll w) in
     snd (run scheduleDailyPoll w) = Done tt /\
     cronTasks w' =
       (cronTasks w ++
        [ {| pattern := orDefault (CRON_PATTERN (env w)) "0 9 * * *";
             timezone := orDefault (TIMEZONE (env w)) "Africa/Cairo";
             running := true |} ])%list /\
     PrayerReminderBot.scheduledTask (prayerBot w') = Some (length (cronTasks w)) /\
     isRunning (length (cronTasks w)) w' = true /\
     (runningTasks w = 0 -> runningTasks w' = 1)) /\
  (forall (w : World) (error : Thrown),
     cronRefusal w (configuredPattern (env w)) (configuredTimezone (env w)) = Some error ->
     run scheduleDailyPoll w = (w, Failed error)) /\
  (forall (s : System) (reason : string),
     exited s = None ->
     cronRefusal (world s) (configuredPattern (env (world s)))
       (configuredTimezone (env (world s))) = None ->
     runningTasks (world s) = referencedRunning (world s) ->
     runningTasks (world (step s (Client (disconnected reason)))) = 0 /\
     runningTasks
       (world (steps s [Client (disconnected reason); Client ready])) = 1).
Proof.
  split; [|split].
  - intros w Hacc w'. subst w'. rewrite (run_scheduleDailyPoll w Hacc).
    unfold isRunning, runningTasks. simpl.
    repeat split.
    + rewrite lookup_app_r by lia. rewrite Nat.sub_diag. reflexivity.
    + intros Hnone. rewrite List.filter_app, length_app. simpl. lia.
  - apply run_scheduleDailyPoll_refused.
  - intros s reason Hlive Hacc Hinv.
    assert (Hstopped :
      runningTasks (world (step s (Client (disconnected reason)))) = 0).
    { revert Hinv. unfold step. rewrite Hlive.
      destruct s as [[e o refusal d tasks [[flag] target sched]] pend iss unh ex].
      unfold dispatch, runningTasks, referencedRunning, isRunning. simpl.
      destruct sched as [task|]; simpl; [|auto].
      pose proof (filter_running_alter_stop tasks task) as Hcount.
      destruct (tasks !! task) as [t|]; [destruct (running t)|]; lia. }
    split; [exact Hstopped|].
    pose proof (disconnected_exited s reason Hlive) as Hlive1.
    destruct (disconnected_config s reason) as [Henv1 Href1].
    rewrite <- Henv1, <- Href1 in Hacc.
    revert Hstopped Hlive1 Hacc. simpl. generalize (step s (Client (disconnected reason))).
    intros s1 Hnone Hlive1 Hacc. unfold step. rewrite Hlive1.
    rewrite dispatch_world, run_listener_ready, run_onReady_world.
    rewrite run_scheduleDailyPoll by exact Hacc.
    revert Hnone. unfold runningTasks. simpl.
    intros Hnone. rewrite List.filter_app, length_app. simpl. lia.
Qed.

Lemma scheduleDailyPoll_rearm_witness :
  runningTasks (world (step readySystem (Client (disconnected "LOGOUT")))) = 0 /\
  runningTasks
    (world (steps readySystem [Client (disconnected "LOGOUT"); Client ready])) = 1.
Proof.
  apply (proj2 (proj2 scheduleDailyPoll_rearm) readySystem "LOGOUT").
  - reflexivity.
  - reflexivity.
  - reflexivity.
Defined.

(** C8. Disarming is idempotent: [stopScheduledTasks] never throws and
    issues no call, whether a task is armed or not, and running it twice in
    a row ends in the same state, with the same (empty) list of calls and the
    same normal outcome, as running it once. Likewise a second disconnect
    event leaves the whole process as the first left it. *)
Theorem stopScheduledTasks_idempotent :
  (forall (w : World) (transport : list Call -> Call -> Settled),
     exec transport [] stopScheduledTasks w
       = (fst (run stopScheduledTasks w), [], Returned tt) /\
     exec transport [] (stopScheduledTasks;; stopScheduledTasks) w
       = exec transport [] stopScheduledTasks w) /\
  (forall (s : System) (reason : string),
     step (step s (Client (disconnected reason))) (Client (disconnected reason))
       = step s (Client (disconnected reason))).
Proof.
  split.
  - intros w transport.
    destruct w as [e o refusal d tasks [[flag] target sched]].
    unfold stopScheduledTasks. simpl. destruct sched as [task|]; simpl.
    + split; [reflexivity|]. unfold setCronTasks. simpl.
      rewrite alter_taskStop_twice. reflexivity.
    + split; reflexivity.
  - intros s reason. destruct (exited s) eqn:Hlive.
    + assert (Hsame : step s (Client (disconnected reason)) = s)
        by (unfold step; rewrite Hlive; reflexivity).
      rewrite Hsame. exact Hsame.
    + destruct s as [[e o refusal d tasks [[flag] target sched]] pend iss unh ex].
      simpl in Hlive. subst ex.
      unfold step, dispatch. simpl. destruct sched as [task|]; simpl.
      * unfold setCronTasks. simpl. rewrite alter_taskStop_twice. reflexivity.
      * reflexivity.
Qed.

(** ** Startup *)

(** What the ready listener leaves when node-cron accepts the
    configuration: the session is ready and the new task is armed; the
    process has not ended and no rejection is unhandled. *)
Lemma ready_accepted (s : System) :
  exited s = None ->
  cronRefusal (world s) (configuredPattern (env (world s)))
    (configuredTimezone (env (world s))) = None ->
  exited (step s (Client ready)) = None /\
  unhandled (step s (Client ready)) = unhandled s /\
  cronTasks (world (step s (Client ready))) =
    (cronTasks (world s) ++
     [ {| pattern := configuredPattern (env (world s));
          timezone := configuredTimezone (env (world s));
          running := true |} ])%list.
Proof.
  intros Hlive Hacc. unfold step. rewrite Hlive.
  destruct s as [[e o refusal d tasks [[flag] target sched]] pend iss unh ex].
  simpl in *. subst ex.
  unfold dispatch, onReady. simpl. rewrite Hacc. simpl.
  destruct (strictEq (TEST_MODE e) "true"); [|repeat split].
  unfold sendDailyPrayerPoll. simpl.
  destruct (length o <? 2)%nat; [repeat split|].
  destruct (12 <? length o)%nat; repeat split.
Qed.

(** What it leaves when node-cron refuses: the error is an unhandled
    rejection, which ends the process with exit code 1; no task is created
    and no call is issued. *)
Lemma ready_refused (s : System) (error : Thrown) :
  exited s = None ->
  cronRefusal (world s) (configuredPattern (env (world s)))
    (configuredTimezone (env (world s))) = Some error ->
  exited (step s (Client ready)) = Some 1%Z /\
  unhandled (step s (Client ready)) = (unhandled s ++ [error])%list /\
  issued (step s (Client ready)) = issued s /\
  pending (step s (Client ready)) = pending s /\
  cronTasks (world (step s (Client ready))) = cronTasks (world s).
Proof.
  intros Hlive Href. unfold step. rewrite Hlive.
  destruct s as [[e o refusal d tasks [[flag] target sched]] pend iss unh ex].
  simpl in *. subst ex.
  unfold dispatch, onReady. simpl. rewrite Href. simpl. repeat split.
Qed.

(** C9, as stated, fails: with the target set and a [CRON_PATTERN] that
    node-cron refuses, [main] constructs the bot and [initialize()]
    resolves, and the ready event ends the process with exit code 1: the
    absence of the target is not the only fatal configuration failure. *)
Lemma refused_pattern_counterexample :
  truthy (TARGET_CHAT_ID refusedEnv) = true /\
  boot refusedEnv readmeOptions sampleRefusal sampleDate = inr refusedSystem /\
  exited (step refusedSystem (Settle 0 sampleAck)) = None /\
  exited (steps refusedSystem [Settle 0 sampleAck; Client authenticated; Client ready])
    = Some 1%Z.
Proof. repeat split; reflexivity. Qed.

(** C9, amended. When [TARGET_CHAT_ID] is absent (unset or empty), [main]
    exits with code 1 before it constructs the bot: there is no application
    state and [initialize()] is not called. It is the only key of the
    configuration whose absence is fatal: when the target is present,
    whatever the other keys hold, [main] constructs the bot and calls
    [initialize()] without exiting, and the process is alive once that call
    is fulfilled; and when node-cron accepts the configured pattern and
    time zone (the defaults where [CRON_PATTERN] or [TIMEZONE] is unset or
    empty), the process is still alive, with no unhandled rejection and the
    schedule armed, after the authenticated and ready events, whatever
    [TEST_MODE] holds. *)
Theorem startup_fatal_iff_target_absent
    (environment : Env) (pollOptions : list string)
    (refusal : string -> string -> option Thrown) (date : Date) :
  (truthy (TARGET_CHAT_ID environment) = false ->
   main environment pollOptions refusal date = ExitBeforeConstruction 1 /\
   boot environment pollOptions refusal date = inl 1%Z) /\
  (truthy (TARGET_CHAT_ID environment) = true ->
   exists (target : string) (s : System),
     TARGET_CHAT_ID environment = Some target /\
     main environment pollOptions refusal date =
       Constructed
         {| env := environment; POLL_OPTIONS := pollOptions;
            cronRefusal := refusal; now := date;
            cronTasks := []; prayerBot := PrayerReminderBot.new target |}
         start /\
     boot environment pollOptions refusal date = inr s /\
     issued s = [client_initialize] /\
     exited s = None /\
     forall ack,
       exited (step s (Settle 0 (Fulfilled ack))) = None /\
       (refusal (configuredPattern environment) (configuredTimezone environment) = None ->
        let s' := steps s [Settle 0 (Fulfilled ack); Client authenticated; Client ready] in
        exited s' = None /\
        unhandled s' = [] /\
        cronTasks (world s') =
          [ {| pattern :=
                 match CRON_PATTERN environment with
                 | Some p => if String.eqb p EmptyString then "0 9 * * *" else p
                 | None => "0 9 * * *"
                 end;
               timezone :=
                 match TIMEZONE environment with
                 | Some z => if String.eqb z EmptyString then "Africa/Cairo" else z
                 | None => "Africa/Cairo"
                 end;
               running := true |} ])).
Proof.
  unfold boot, main, truthy.
  destruct (TARGET_CHAT_ID environment) as [target|].
  - destruct (String.eqb target EmptyString) eqn:Hempty; simpl.
    + split; [intros _; split; reflexivity | discriminate].
    + split; [discriminate|]. intros _.
      eexists target, _. do 5 (split; [reflexivity|]).
      intros ack. split; [reflexivity|]. intros Hacc. cbv zeta.
      change (steps ?s0 [?a; ?b; ?c]) with (step (step (step s0 a) b) c).
      apply (ready_accepted
               (step (step (dispatch start
                  {| world :=
                       {| env := environment; POLL_OPTIONS := pollOptions;
                          cronRefusal := refusal; now := date; cronTasks := [];
                          prayerBot := PrayerReminderBot.new target |};
                     pending := []; issued := []; unhandled := []; exited := None |})
                  (Settle 0 (Fulfilled ack))) (Client authenticated)));
        [reflexivity | exact Hacc].
  - split; [intros _; split; reflexivity | discriminate].
Qed.

Lemma startup_fatal_iff_target_absent_witness :
  (main (mkEnv None (Some "0 8 * * *") (Some "Asia/Riyadh") (Some "true"))
        readmeOptions sampleRefusal sampleDate = ExitBeforeConstruction 1 /\
   boot (mkEnv None (Some "0 8 * * *") (Some "Asia/Riyadh") (Some "true"))
        readmeOptions sampleRefusal sampleDate = inl 1%Z) /\
  exited (steps bootedSystem [Settle 0 sampleAck; Client authenticated; Client ready])
    = None.
Proof.
  split.
  - apply (proj1 (startup_fatal_iff_target_absent
                    (mkEnv None (Some "0 8 * * *") (Some "Asia/Riyadh") (Some "true"))
                    readmeOptions sampleRefusal sampleDate)).
    reflexivity.
  - destruct (proj2 (startup_fatal_iff_target_absent sampleEnv readmeOptions
                       sampleRefusal sampleDate) eq_refl)
      as (target & s & _ & _ & Hboot & _ & _ & Hrest).
    injection Hboot as <-.
    destruct (Hrest (mkMessage "201234567890@c.us" EmptyString)) as [_ Hready].
    apply (Hready eq_refl).
Defined.

(** ** The recurring dispatch and the command handler *)

Lemma exec_bind {St A B} (transport : list Call -> Call -> Settled)
    (p : Proc St A) (f : A -> Proc St B) (calls : list Call) (s : St) :
  exec transport calls (bind p f) s =
  match exec transport calls p s with
  | (s', calls', Returned a) => exec transport calls' (f a) s'
  | (s', calls', Threw e) => (s', calls', Threw e)
  | (s', calls', ProcessExit code) => (s', calls', ProcessExit code)
  end.
Proof.
  revert calls s.
  induction p as [a|e|code|k IH|s' k IH|c k IH]; intros calls s; simpl; auto.
Qed.

(** On a ready session with 2 to 12 options the dispatch hands the poll to
    the transport and, whatever the transport answers, ends normally. *)
Lemma run_sendDailyPrayerPoll_sends (w : World) :
  WhatsAppBot.isReady (theBot w) = true ->
  optionCountOk (length (POLL_OPTIONS w)) = true ->
  exists k,
    run sendDailyPrayerPoll w = (w, Suspended (pollCall w) k) /\
    forall r, k r = Ret tt.
Proof.
  destruct w as [e o refusal d tasks [[flag] target sched]].
  unfold theBot, optionCountOk. simpl. intros -> Hok.
  apply andb_prop in Hok as [Hlo Hhi]. apply negb_true_iff in Hlo, Hhi.
  unfold sendDailyPrayerPoll, pollCall. simpl. rewrite Hlo, Hhi. simpl.
  eexists. split; [reflexivity|]. intros [ack|reason]; reflexivity.
Qed.

(** Otherwise it sends nothing and still ends normally. *)
Lemma run_sendDailyPrayerPoll_skips (w : World) :
  WhatsAppBot.isReady (theBot w) && optionCountOk (length (POLL_OPTIONS w)) = false ->
  run sendDailyPrayerPoll w = (w, Done tt).
Proof.
  destruct w as [e o refusal d tasks [[flag] target sched]].
  unfold theBot, optionCountOk. simpl. intros Hno.
  unfold sendDailyPrayerPoll. simpl. destruct flag; simpl in *; [|reflexivity].
  destruct (length o <? 2)%nat; [reflexivity|].
  destruct (12 <? length o)%nat; [reflexivity | discriminate Hno].
Qed.

Lemma exec_sendDailyPrayerPoll (transport : list Call -> Call -> Settled)
    (calls : list Call) (w : World) :
  exec transport calls sendDailyPrayerPoll w =
  (w,
   (calls ++
    if WhatsAppBot.isReady (theBot w) && optionCountOk (length (POLL_OPTIONS w))
    then [pollCall w] else [])%list,
   Returned tt).
Proof.
  destruct w as [e o refusal d tasks [[flag] target sched]].
  unfold theBot, optionCountOk, sendDailyPrayerPoll, pollCall. simpl.
  destruct flag; simpl; [|rewrite app_nil_r; reflexivity].
  destruct (length o <? 2)%nat; simpl; [rewrite app_nil_r; reflexivity|].
  destruct (12 <? length o)%nat; simpl; [rewrite app_nil_r; reflexivity|].
  destruct (transport calls _) as [ack|reason]; reflexivity.
Qed.

Lemma pollsInFlight_dispatch_poll (p : Proc World unit) (s : System) (w : World)
    (c : Call) (k : Settled -> Proc World unit) :
  run p (world s) = (w, Suspended c k) -> isPollSend c = true ->
  pollsInFlight (dispatch p s) = S (pollsInFlight s) /\
  issued (dispatch p s) = (issued s ++ [c])%list /\
  unhandled (dispatch p s) = unhandled s /\
  exited (dispatch p s) = exited s /\
  world (dispatch p s) = w.
Proof.
  intros Hrun Hpoll. unfold dispatch, pollsInFlight. rewrite Hrun. simpl.
  repeat split. rewrite List.filter_app, length_app. simpl. rewrite Hpoll. simpl. lia.
Qed.

(** A trigger command from a chat member starts with the dispatch. *)
Lemma run_onMessage_trigger (m : Message) (w : World) :
  isPseudoSender (from m) = false -> isTriggerCommand (body m) = true ->
  WhatsAppBot.isReady (theBot w) = true ->
  optionCountOk (length (POLL_OPTIONS w)) = true ->
  exists k, run (onMessage m) w = (w, Suspended (pollCall w) k).
Proof.
  intros Hsender Htrigger Hready Hok.
  destruct (run_sendDailyPrayerPoll_sends w Hready Hok) as (k & Hrun & Hk).
  unfold onMessage.
  unfold isPseudoSender in Hsender. unfold isTriggerCommand in Htrigger.
  rewrite Hsender, Htrigger.
  eexists. etransitivity; [apply run_bind|]. rewrite Hrun. reflexivity.
Qed.

(** C1, as stated, fails: the timer fires and its poll send is in flight;
    the trigger command arrives; now two poll sends are in flight, both were
    handed to the transport, and nothing was skipped. *)
Lemma concurrent_dispatch_counterexample :
  pollsInFlight (step readySystem (CronFire 0)) = 1 /\
  pollsInFlight raceSystem = 2 /\
  issued raceSystem =
    [client_initialize; pollCall (world readySystem); pollCall (world readySystem)].
Proof. repeat split; reflexivity. Qed.

(** C1, amended. The dispatch has no lock: on the live process with a ready
    session and 2 to 12 poll options, every fire of a running task and every
    trigger command from a chat member hands one more poll to the transport
    at once, whatever number of poll sends is in flight already; none is
    skipped or queued, and the application state is left as it is. *)
Theorem dispatch_unguarded (s : System) :
  exited s = None ->
  WhatsAppBot.isReady (theBot (world s)) = true ->
  optionCountOk (length (POLL_OPTIONS (world s))) = true ->
  (forall task, isRunning task (world s) = true ->
     let s' := step s (CronFire task) in
     pollsInFlight s' = S (pollsInFlight s) /\
     issued s' = (issued s ++ [pollCall (world s)])%list /\
     unhandled s' = unhandled s /\
     exited s' = None /\
     world s' = world s) /\
  (forall m, isPseudoSender (from m) = false -> isTriggerCommand (body m) = true ->
     let s' := step s (Client (message m)) in
     pollsInFlight s' = S (pollsInFlight s) /\
     issued s' = (issued s ++ [pollCall (world s)])%list /\
     unhandled s' = unhandled s /\
     exited s' = None /\
     world s' = world s).
Proof.
  intros Hlive Hready Hok.
  split.
  - destruct (run_sendDailyPrayerPoll_sends (world s) Hready Hok) as (k & Hrun & Hk).
    intros task Htask s'. subst s'. unfold step. rewrite Hlive, Htask.
    rewrite <- Hlive.
    apply (pollsInFlight_dispatch_poll cronCallback s (world s) (pollCall (world s)) k);
      [exact Hrun | reflexivity].
  - intros m Hsender Htrigger s'. subst s'. unfold step. rewrite Hlive.
    rewrite <- Hlive.
    destruct (run_onMessage_trigger m (world s) Hsender Htrigger Hready Hok)
      as (k' & Hrun').
    apply (pollsInFlight_dispatch_poll (listener (message m)) s (world s)
             (pollCall (world s)) k'); [exact Hrun' | reflexivity].
Qed.

Lemma dispatch_unguarded_witness :
  pollsInFlight (step (step readySystem (CronFire 0)) (Client (message prayerCommand)))
    = S (pollsInFlight (step readySystem (CronFire 0))).
Proof.
  apply (proj2 (dispatch_unguarded (step readySystem (CronFire 0))
                  eq_refl eq_refl eq_refl) prayerCommand).
  - reflexivity.
  - reflexivity.
Defined.

Lemma isTriggerCommand_spec (text : string) :
  isTriggerCommand text = true <->
  toLowerCase text = "!prayer" \/ toLowerCase text = "!صلاة".
Proof.
  unfold isTriggerCommand. rewrite orb_true_iff, !String.eqb_eq. reflexivity.
Qed.

Lemma isHelpCommand_spec (text : string) :
  isHelpCommand text = true <->
  toLowerCase text = "!help" \/ toLowerCase text = "!مساعدة".
Proof.
  unfold isHelpCommand. rewrite orb_true_iff, !String.eqb_eq. reflexivity.
Qed.

Example commands_any_case :
  isTriggerCommand "!prayer" = true /\ isTriggerCommand "!PRAYER" = true /\
  isTriggerCommand "!pRaYeR" = true /\ isTriggerCommand "!صلاة" = true /\
  isHelpCommand "!help" = true /\ isHelpCommand "!HeLp" = true /\
  isHelpCommand "!مساعدة" = true /\
  isTriggerCommand "!unknown" = false /\ isHelpCommand "!unknown" = false /\
  isTriggerCommand " !prayer" = false /\ isTriggerCommand "!prayer now" = false.
Proof. repeat split; reflexivity. Qed.

Example parseMentions_example :
  WhatsAppBot.parseMentions "hi @201 and @@77x @ 5" "c" = ["201@c.us"; "77@c.us"].
Proof. reflexivity. Qed.

(** C7. For every inbound message, state and transport: a message from the
    status broadcast or from a newsletter does nothing, whatever its body;
    otherwise the body is compared, lowered, with the command table. On a
    trigger command the handler is one dispatch of the poll followed by one
    reply: at most one poll reaches the transport (exactly one on a ready
    session with 2 to 12 options) and then exactly one reply, the fixed
    acknowledgment. On a help command the only call is one reply, the fixed
    help text. On any other body nothing is sent or replied. The
    application state is the same afterwards in every case. *)
Theorem onMessage_classification
    (m : Message) (w : World) (transport : list Call -> Call -> Settled) :
  let sent :=
    if WhatsAppBot.isReady (theBot w) && optionCountOk (length (POLL_OPTIONS w))
    then [pollCall w] else [] in
  let replied (calls : list Call) (text : string) : Outcome unit :=
    match transport calls (message_reply m text) with
    | Fulfilled _ => Returned tt
    | Rejected reason => Threw reason
    end in
  (isTriggerCommand (body m) = true <->
     toLowerCase (body m) = "!prayer" \/ toLowerCase (body m) = "!صلاة") /\
  (isHelpCommand (body m) = true <->
     toLowerCase (body m) = "!help" \/ toLowerCase (body m) = "!مساعدة") /\
  (isPseudoSender (from m) = true ->
   exec transport [] (onMessage m) w = (w, [], Returned tt)) /\
  (isPseudoSender (from m) = false -> isTriggerCommand (body m) = true ->
   onMessage m =
     (sendDailyPrayerPoll;; _ ← await (message_reply m pollSentReply); mret tt) /\
   exec transport [] (onMessage m) w =
     (w, (sent ++ [message_reply m pollSentReply])%list, replied sent pollSentReply)) /\
  (isPseudoSender (from m) = false -> isTriggerCommand (body m) = false ->
   isHelpCommand (body m) = true ->
   exec transport [] (onMessage m) w =
     (w, [message_reply m helpReply], replied [] helpReply)) /\
  (isPseudoSender (from m) = false -> isTriggerCommand (body m) = false ->
   isHelpCommand (body m) = false ->
   exec transport [] (onMessage m) w = (w, [], Returned tt)).
Proof.
  intros sent replied.
  split; [apply isTriggerCommand_spec|]. split; [apply isHelpCommand_spec|].
  unfold isPseudoSender, isTriggerCommand, isHelpCommand, onMessage.
  split; [intros ->; reflexivity|].
  split; [|split].
  - intros -> ->. split; [reflexivity|].
    etransitivity; [apply exec_bind|]. rewrite exec_sendDailyPrayerPoll.
    subst sent replied. simpl.
    destruct (transport _ _) as [ack|reason]; reflexivity.
  - intros -> -> ->. subst replied. simpl.
    destruct (transport _ _) as [ack|reason]; reflexivity.
  - intros -> -> ->. reflexivity.
Qed.

Lemma onMessage_classification_witness :
  exec (fun _ _ => sampleAck) [] (onMessage prayerCommand) (world readySystem) =
    (world readySystem,
     [pollCall (world readySystem); message_reply prayerCommand pollSentReply],
     Returned tt) /\
  exec (fun _ _ => sampleAck) []
       (onMessage (mkMessage "201111111111@c.us" "!HELP")) (world readySystem) =
    (world readySystem,
     [message_reply (mkMessage "201111111111@c.us" "!HELP") helpReply],
     Returned tt) /\
  exec (fun _ _ => sampleAck) []
       (onMessage (mkMessage "201111111111@c.us" "!unknown")) (world readySystem) =
    (world readySystem, [], Returned tt) /\
  exec (fun _ _ => sampleAck) []
       (onMessage (mkMessage "120363000000000000@newsletter" "!prayer"))
       (world readySystem) =
    (world readySystem, [], Returned tt).
Proof.
  split; [|split; [|split]].
  - destruct (onMessage_classification prayerCommand (world readySystem)
                (fun _ _ => sampleAck)) as (_ & _ & _ & Htrigger & _ & _).
    destruct (Htrigger eq_refl eq_refl) as [_ Hexec]. exact Hexec.
  - destruct (onMessage_classification (mkMessage "201111111111@c.us" "!HELP")
                (world readySystem) (fun _ _ => sampleAck))
      as (_ & _ & _ & _ & Hhelp & _).
    exact (Hhelp eq_refl eq_refl eq_refl).
  - destruct (onMessage_classification (mkMessage "201111111111@c.us" "!unknown")
                (world readySystem) (fun _ _ => sampleAck))
      as (_ & _ & _ & _ & _ & Hother).
    exact (Hother eq_refl eq_refl eq_refl).
  - destruct (onMessage_classification
                (mkMessage "120363000000000000@newsletter" "!prayer")
                (world readySystem) (fun _ _ => sampleAck))
      as (_ & _ & Hpseudo & _).
    exact (Hpseudo eq_refl).
Defined.

(** * Further properties of the code *)

(** ** WhatsAppBot.parseMentions *)

Lemma string_app_cons (x : ascii) (a b : string) :
  String x a +:+ b = String x (a +:+ b).
Proof. reflexivity. Qed.

Lemma string_app_assoc (a b c : string) : (a +:+ b) +:+ c = a +:+ (b +:+ c).
Proof.
  induction a as [|x a IH]; [reflexivity|].
  rewrite !string_app_cons. f_equal. exact IH.
Qed.

Lemma string_app_empty_r (a : string) : a +:+ EmptyString = a.
Proof.
  induction a as [|x a IH]; [reflexivity|].
  rewrite string_app_cons. f_equal. exact IH.
Qed.

Lemma allDigits_app (a b : string) :
  allDigits (a +:+ b) = allDigits a && allDigits b.
Proof.
  induction a as [|c a IH]; [reflexivity|].
  rewrite string_app_cons. simpl. rewrite IH. apply andb_assoc.
Qed.

Lemma digit_not_at (c : ascii) : WhatsAppBot.isDigit c = true -> Ascii.eqb c "@" = false.
Proof.
  intros Hd. destruct (Ascii.eqb c "@") eqn:Heq; [|reflexivity].
  apply Ascii.eqb_eq in Heq. subst c. discriminate Hd.
Qed.

Lemma flushMention_form (cur : option string) :
  (forall digits, cur = Some digits -> allDigits digits = true) ->
  Forall isMention (WhatsAppBot.flushMention cur).
Proof.
  intros Hcur. destruct cur as [digits|]; simpl; [|constructor].
  destruct (String.eqb digits EmptyString) eqn:Hempty; [constructor|].
  constructor; [|constructor]. exists digits. split; [reflexivity|]. split.
  - intros ->. discriminate Hempty.
  - apply Hcur. reflexivity.
Qed.

Lemma scanMentions_form (content : string) (cur : option string) :
  (forall digits, cur = Some digits -> allDigits digits = true) ->
  Forall isMention (WhatsAppBot.scanMentions cur content).
Proof.
  revert cur. induction content as [|c rest IH]; intros cur Hcur; simpl.
  - apply flushMention_form, Hcur.
  - destruct (WhatsAppBot.isDigit c) eqn:Hdigit.
    + destruct cur as [digits|]; apply IH.
      * intros ds Heq. injection Heq as <-. rewrite allDigits_app. simpl.
        rewrite (Hcur digits eq_refl), Hdigit. reflexivity.
      * discriminate.
    + apply Forall_app. split; [apply flushMention_form, Hcur|].
      apply IH. intros ds Heq. destruct (Ascii.eqb c "@"); [|discriminate].
      injection Heq as <-. reflexivity.
Qed.

(** X1. Every mention [parseMentions] returns is a non-empty run of decimal
    digits followed by [@c.us], whatever the content. *)
Theorem parseMentions_form (content chatId : string) :
  Forall isMention (WhatsAppBot.parseMentions content chatId).
Proof.
  unfold WhatsAppBot.parseMentions. apply scanMentions_form. discriminate.
Qed.

Lemma flushMention_length (cur : option string) :
  length (WhatsAppBot.flushMention cur) <= match cur with Some _ => 1 | None => 0 end.
Proof.
  destruct cur as [digits|]; simpl; [|lia].
  destruct (String.eqb digits EmptyString); simpl; lia.
Qed.

Lemma scanMentions_bound (content : string) (cur : option string) :
  length (WhatsAppBot.scanMentions cur content) <=
  match cur with Some _ => 1 | None => 0 end + countAt content.
Proof.
  revert cur. induction content as [|c rest IH]; intros cur; simpl.
  - pose proof (flushMention_length cur). lia.
  - destruct (WhatsAppBot.isDigit c) eqn:Hdigit.
    + rewrite (digit_not_at c Hdigit).
      destruct cur as [digits|].
      * specialize (IH (Some (digits +:+ String c EmptyString))). simpl in *. lia.
      * specialize (IH None). simpl in *. lia.
    + rewrite length_app. pose proof (flushMention_length cur) as Hflush.
      destruct (Ascii.eqb c "@").
      * specialize (IH (Some EmptyString)). simpl in *. lia.
      * specialize (IH None). simpl in *. lia.
Qed.

(** X2. [parseMentions] returns at most one mention per [@] of the content;
    in particular a content without [@] mentions nobody. *)
Theorem parseMentions_bound (content chatId : string) :
  length (WhatsAppBot.parseMentions content chatId) <= countAt content /\
  (countAt content = 0 -> WhatsAppBot.parseMentions content chatId = []).
Proof.
  pose proof (scanMentions_bound content None) as Hbound. simpl in Hbound.
  split; [exact Hbound|].
  intros Hnone. unfold WhatsAppBot.parseMentions in *.
  destruct (WhatsAppBot.scanMentions None content); [reflexivity|].
  simpl in Hbound. lia.
Qed.

Lemma parseMentions_bound_witness :
  WhatsAppBot.parseMentions "salam, 2012 at 9" "201234567890@c.us" = [].
Proof.
  apply (proj2 (parseMentions_bound "salam, 2012 at 9" "201234567890@c.us")).
  reflexivity.
Defined.

Lemma scanMentions_none_start (tail : string) :
  startsWithDigit tail = false ->
  forall cur,
    WhatsAppBot.scanMentions cur tail =
    (WhatsAppBot.flushMention cur ++ WhatsAppBot.scanMentions None tail)%list.
Proof.
  destruct tail as [|c rest]; simpl; intros Hstart cur.
  - rewrite app_nil_r. reflexivity.
  - rewrite Hstart. reflexivity.
Qed.

Lemma scanMentions_digits (digits tail : string) :
  allDigits digits = true -> startsWithDigit tail = false ->
  forall acc,
    WhatsAppBot.scanMentions (Some acc) (digits +:+ tail) =
    (WhatsAppBot.flushMention (Some (acc +:+ digits)) ++
     WhatsAppBot.scanMentions None tail)%list.
Proof.
  intros Hdigits Htail. induction digits as [|c rest IH]; intros acc.
  - rewrite string_app_empty_r. apply scanMentions_none_start, Htail.
  - simpl in Hdigits. apply andb_prop in Hdigits as [Hc Hrest].
    rewrite string_app_cons. simpl. rewrite Hc, (IH Hrest).
    rewrite string_app_assoc. reflexivity.
Qed.

Lemma scanMentions_skip (before rest : string) :
  countAt before = 0 ->
  WhatsAppBot.scanMentions None (before +:+ rest) = WhatsAppBot.scanMentions None rest.
Proof.
  induction before as [|c before IH]; intros Hnone; [reflexivity|].
  rewrite string_app_cons. simpl in *.
  destruct (Ascii.eqb c "@"); [discriminate Hnone|].
  destruct (WhatsAppBot.isDigit c); simpl; apply IH; exact Hnone.
Qed.

(** X3. A mention is found where it stands: after a text without [@], an [@]
    followed by a non-empty run of digits that ends at the end of the
    content or at a non-digit yields that number as the first mention, and
    the scan goes on with what follows. *)
Theorem parseMentions_finds (before digits tail chatId : string) :
  countAt before = 0 ->
  digits <> EmptyString ->
  allDigits digits = true ->
  startsWithDigit tail = false ->
  WhatsAppBot.parseMentions (before +:+ "@" +:+ digits +:+ tail) chatId =
  (digits +:+ "@c.us") :: WhatsAppBot.parseMentions tail chatId.
Proof.
  intros Hbefore Hne Hdigits Htail. unfold WhatsAppBot.parseMentions.
  rewrite (scanMentions_skip before _ Hbefore).
  change ("@" +:+ digits +:+ tail) with (String "@" (digits +:+ tail)).
  simpl. rewrite (scanMentions_digits digits tail Hdigits Htail).
  change (EmptyString +:+ digits) with digits. simpl.
  destruct (String.eqb digits EmptyString) eqn:Hempty; [|reflexivity].
  apply String.eqb_eq in Hempty. contradiction.
Qed.

Lemma parseMentions_finds_witness :
  WhatsAppBot.parseMentions ("salam " +:+ "@" +:+ "201234567890" +:+ ", come")
    "120363@g.us"
  = ("201234567890" +:+ "@c.us") :: WhatsAppBot.parseMentions ", come" "120363@g.us".
Proof.
  apply (parseMentions_finds "salam " "201234567890" ", come" "120363@g.us").
  - reflexivity.
  - discriminate.
  - reflexivity.
  - reflexivity.
Defined.

(** ** WhatsAppBot: what the sends do on a ready session *)

(** X4. On a ready session [sendMessage] hands exactly one call to the
    transport: the text, with the parsed mentions if [parseMentions] is set
    and the quoted id if it is a non-empty string. It returns the message of
    the transport, or throws an error whose message is [Failed to send
    message: ] followed by the message of the rejection ([Unknown error] if
    the rejection is no [Error]); the state of the bot is unchanged. *)
Theorem sendMessage_on_ready (this : WhatsAppBot.t) (o : SendMessageOptions.t)
    (transport : list Call -> Call -> Settled) :
  WhatsAppBot.isReady this = true ->
  exec transport [] (WhatsAppBot.sendMessage o) this =
  (this, [messageCall o],
   match transport [] (messageCall o) with
   | Fulfilled ack => Returned ack
   | Rejected reason =>
       Threw (ErrorObj ("Failed to send message: " +:+ errorMessage reason))
   end).
Proof.
  destruct this as [flag]. simpl. intros ->.
  unfold WhatsAppBot.sendMessage, messageCall, sendOptionsOf. simpl.
  destruct (transport _ _) as [ack|reason]; reflexivity.
Qed.

Lemma sendMessage_on_ready_witness :
  exec (fun _ _ => Rejected NonError) []
       (WhatsAppBot.sendMessage
          (SendMessageOptions.mk "120363@g.us" "salam @2012" true (Some EmptyString)))
       (WhatsAppBot.mk true) =
  (WhatsAppBot.mk true,
   [client_sendMessage "120363@g.us" (Text "salam @2012")
      (Some {| mentions := Some ["2012@c.us"]; sendQuotedMessageId := None |})],
   Threw (ErrorObj "Failed to send message: Unknown error")).
Proof.
  apply (sendMessage_on_ready (WhatsAppBot.mk true)
           (SendMessageOptions.mk "120363@g.us" "salam @2012" true (Some EmptyString))
           (fun _ _ => Rejected NonError)).
  reflexivity.
Defined.

(** X5. On a ready session with 2 to 12 options [sendPoll] hands exactly one
    call to the transport: the poll with the question, the options in their
    order, [allowMultipleAnswers] (false when unset) and the message secret
    [[1]], with no send options. It returns the message of the transport, or
    throws an error whose message is [Failed to send poll: ] followed by the
    message of the rejection; the state of the bot is unchanged. *)
Theorem sendPoll_on_ready (this : WhatsAppBot.t) (o : SendPollOptions.t)
    (transport : list Call -> Call -> Settled) :
  WhatsAppBot.isReady this = true ->
  optionCountOk (length (SendPollOptions.options o)) = true ->
  exec transport [] (WhatsAppBot.sendPoll o) this =
  (this, [pollCallOf o],
   match transport [] (pollCallOf o) with
   | Fulfilled ack => Returned ack
   | Rejected reason =>
       Threw (ErrorObj ("Failed to send poll: " +:+ errorMessage reason))
   end).
Proof.
  destruct this as [flag]. simpl. intros -> Hok.
  unfold optionCountOk in Hok. apply andb_prop in Hok as [Hlo Hhi].
  apply negb_true_iff in Hlo, Hhi.
  unfold WhatsAppBot.sendPoll, pollCallOf. simpl. rewrite Hlo, Hhi. simpl.
  destruct (transport _ _) as [ack|reason]; reflexivity.
Qed.

Lemma sendPoll_on_ready_witness :
  exec (fun _ _ => Rejected (ErrorObj "Evaluation failed")) []
       (WhatsAppBot.sendPoll (SendPollOptions.mk "120363@g.us" "q" ["a"; "b"] None))
       (WhatsAppBot.mk true) =
  (WhatsAppBot.mk true,
   [client_sendMessage "120363@g.us" (PollContent (mkPoll "q" ["a"; "b"] false [1%Z])) None],
   Threw (ErrorObj "Failed to send poll: Evaluation failed")).
Proof.
  apply (sendPoll_on_ready (WhatsAppBot.mk true)
           (SendPollOptions.mk "120363@g.us" "q" ["a"; "b"] None)
           (fun _ _ => Rejected (ErrorObj "Evaluation failed"))).
  - reflexivity.
  - reflexivity.
Defined.

(** ** WhatsAppBot: initialize and destroy *)

(** X6. [initialize] has no guard on the state: it always hands
    [client.initialize()] to the transport, rethrows its rejection as it is,
    and never raises [isInitialized]. So a send that follows a resolved
    [initialize()] on a bot that was not ready still throws the
    not-initialized error, with nothing but the initialize call issued. *)
Theorem initialize_does_not_make_ready (this : WhatsAppBot.t)
    (transport : list Call -> Call -> Settled) :
  exec transport [] WhatsAppBot.initialize this =
    (this, [client_initialize],
     match transport [] client_initialize with
     | Fulfilled _ => Returned tt
     | Rejected reason => Threw reason
     end) /\
  (forall (ack : Message) (op : SendPollOptions.t) (om : SendMessageOptions.t),
     WhatsAppBot.isReady this = false ->
     transport [] client_initialize = Fulfilled ack ->
     exec transport [] (WhatsAppBot.initialize;; WhatsAppBot.sendPoll op) this =
       (this, [client_initialize], Threw NotInitializedError) /\
     exec transport [] (WhatsAppBot.initialize;; WhatsAppBot.sendMessage om) this =
       (this, [client_initialize], Threw NotInitializedError)).
Proof.
  split.
  - simpl. destruct (transport _ _) as [ack|reason]; reflexivity.
  - intros ack op om Hdown Hok. destruct this as [flag]. simpl in Hdown. subst flag.
    split; simpl; rewrite Hok; reflexivity.
Qed.

Lemma initialize_does_not_make_ready_witness :
  exec (fun _ _ => sampleAck) []
       (WhatsAppBot.initialize;;
        WhatsAppBot.sendPoll (SendPollOptions.mk "120363@g.us" "q" ["a"; "b"] None))
       WhatsAppBot.new =
  (WhatsAppBot.new, [client_initialize], Threw NotInitializedError).
Proof.
  apply (proj2 (initialize_does_not_make_ready WhatsAppBot.new (fun _ _ => sampleAck))
           (mkMessage "201234567890@c.us" EmptyString)
           (SendPollOptions.mk "120363@g.us" "q" ["a"; "b"] None)
           (SendMessageOptions.mk "120363@g.us" "salam" false None)).
  - reflexivity.
  - reflexivity.
Defined.

(** X7. [destroy] hands [client.destroy()] to the transport. When that
    resolves the bot is no longer ready, whatever it was, and a send that
    follows throws the not-initialized error; when it is rejected the
    rejection is rethrown and [isInitialized] keeps its value. *)
Theorem destroy_clears_ready (this : WhatsAppBot.t)
    (transport : list Call -> Call -> Settled) :
  (forall (ack : Message) (op : SendPollOptions.t),
     transport [] client_destroy = Fulfilled ack ->
     exec transport [] WhatsAppBot.destroy this =
       (WhatsAppBot.mk false, [client_destroy], Returned tt) /\
     exec transport [] (WhatsAppBot.destroy;; WhatsAppBot.sendPoll op) this =
       (WhatsAppBot.mk false, [client_destroy], Threw NotInitializedError)) /\
  (forall reason : Thrown,
     transport [] client_destroy = Rejected reason ->
     exec transport [] WhatsAppBot.destroy this =
       (this, [client_destroy], Threw reason)).
Proof.
  split.
  - intros ack op Hok. split; simpl; rewrite Hok; reflexivity.
  - intros reason Hno. simpl. rewrite Hno. reflexivity.
Qed.

Lemma destroy_clears_ready_witness :
  exec (fun _ _ => sampleAck) [] WhatsAppBot.destroy (WhatsAppBot.mk true) =
    (WhatsAppBot.mk false, [client_destroy], Returned tt) /\
  exec (fun _ _ => sampleAck) []
       (WhatsAppBot.destroy;;
        WhatsAppBot.sendPoll (SendPollOptions.mk "120363@g.us" "q" ["a"; "b"] None))
       (WhatsAppBot.mk true) =
    (WhatsAppBot.mk false, [client_destroy], Threw NotInitializedError).
Proof.
  apply (proj1 (destroy_clears_ready (WhatsAppBot.mk true) (fun _ _ => sampleAck))
           (mkMessage "201234567890@c.us" EmptyString)
           (SendPollOptions.mk "120363@g.us" "q" ["a"; "b"] None)).
  reflexivity.
Defined.

(** ** index.ts: the dispatch of the daily poll *)

(** X8. [getArabicMonth] names the twelve month indexes 0 to 11 with twelve
    different non-empty names, and reads [undefined] for any index past
    them. *)
Theorem getArabicMonth_table :
  (forall i, i < 12 ->
     getArabicMonth i <> "undefined" /\ getArabicMonth i <> EmptyString) /\
  (forall i j, i < 12 -> j < 12 -> getArabicMonth i = getArabicMonth j -> i = j) /\
  (forall i, 12 <= i -> getArabicMonth i = "undefined").
Proof.
  split; [|split].
  - intros i Hi.
    do 12 (destruct i as [|i]; [split; discriminate|]). lia.
  - intros i j Hi Hj.
    do 12 (destruct i as [|i];
           [do 12 (destruct j as [|j]; [first [reflexivity | discriminate]|]); lia|]).
    lia.
  - intros i Hi. do 12 (destruct i as [|i]; [lia|]). reflexivity.
Qed.

Lemma getArabicMonth_table_witness :
  getArabicMonth 9 <> "undefined" /\ getArabicMonth 9 <> EmptyString.
Proof.
  apply (proj1 getArabicMonth_table 9). lia.
Defined.

(** X9. The daily dispatch never throws and never exits, whatever the
    transport answers, and leaves the application state as it is. It hands
    at most one call to the transport: on a ready session with 2 to 12
    options, the poll for the configured target, with the question made of
    the heart, the day of the month and the Arabic month name, the imported
    options and multiple answers allowed; otherwise nothing. *)
Theorem sendDailyPrayerPoll_never_throws
    (transport : list Call -> Call -> Settled) (calls : list Call) (w : World) :
  exists sent,
    exec transport calls sendDailyPrayerPoll w = (w, (calls ++ sent)%list, Returned tt) /\
    sent =
      (if WhatsAppBot.isReady (theBot w) && optionCountOk (length (POLL_OPTIONS w))
       then
         [client_sendMessage (PrayerReminderBot.targetChatId (prayerBot w))
            (PollContent
               {| pollName :=
                    "❤️ " +:+ numberToString (getDate (now w)) +:+ " " +:+
                    getArabicMonth (getMonth (now w));
                  pollOptions := POLL_OPTIONS w;
                  pollAllowMultipleAnswers := true;
                  messageSecret := [1%Z] |})
            None]
       else []) /\
    length sent <= 1.
Proof.
  eexists. split; [apply exec_sendDailyPrayerPoll|]. split; [reflexivity|].
  destruct (_ && _); simpl; lia.
Qed.

(** X10. A timer fire that finds the session not ready, or the option list
    out of range, changes nothing at all: no call, no rejection, no exit,
    the same state. *)
Theorem cronFire_without_session (s : System) (task : nat) :
  WhatsAppBot.isReady (theBot (world s)) &&
    optionCountOk (length (POLL_OPTIONS (world s))) = false ->
  step s (CronFire task) = s.
Proof.
  intros Hno. unfold step. destruct (exited s); [reflexivity|].
  destruct (isRunning task (world s)); [|reflexivity].
  unfold dispatch, cronCallback. rewrite (run_sendDailyPrayerPoll_skips _ Hno).
  destruct s; reflexivity.
Qed.

Lemma cronFire_without_session_witness :
  step (steps readySystem [Client ready; Client (disconnected "LOGOUT")]) (CronFire 0)
  = steps readySystem [Client ready; Client (disconnected "LOGOUT")].
Proof.
  apply (cronFire_without_session
           (steps readySystem [Client ready; Client (disconnected "LOGOUT")]) 0).
  reflexivity.
Defined.

(** ** index.ts: the handlers *)

(** What the ready listener does to the process. *)
Lemma run_listener_ready_test (w : World) :
  cronRefusal w (configuredPattern (env w)) (configuredTimezone (env w)) = None ->
  strictEq (TEST_MODE (env w)) "true" = true ->
  optionCountOk (length (POLL_OPTIONS w)) = true ->
  exists k,
    run (listener ready) w =
      (fst (run (listener ready) w), Suspended (pollCall w) k).
Proof.
  destruct w as [e o refusal d tasks [[flag] target sched]].
  unfold optionCountOk. simpl. intros Hacc Htest Hok.
  apply andb_prop in Hok as [Hlo Hhi]. apply negb_true_iff in Hlo, Hhi.
  unfold onReady, sendDailyPrayerPoll, pollCall. simpl.
  rewrite Hacc. simpl. rewrite Htest. simpl. rewrite Hlo, Hhi. simpl.
  eexists. reflexivity.
Qed.

Lemma run_listener_ready_plain (w : World) :
  cronRefusal w (configuredPattern (env w)) (configuredTimezone (env w)) = None ->
  strictEq (TEST_MODE (env w)) "true" = false ->
  snd (run (listener ready) w) = Done tt.
Proof.
  destruct w as [e o refusal d tasks [[flag] target sched]]. simpl. intros Hacc Htest.
  unfold onReady. simpl. rewrite Hacc. simpl. rewrite Htest. reflexivity.
Qed.

(** X11. On a ready event, when node-cron accepts the configured pattern
    and time zone, the poll is dispatched at once exactly when [TEST_MODE]
    is the string [true]: then (with 2 to 12 options) one poll goes to the
    transport; for any other value, or none, the ready event issues no call
    at all. When node-cron refuses them the handler throws before it reads
    [TEST_MODE]: no call is issued, and the unhandled rejection ends the
    process with exit code 1. *)
Theorem ready_test_mode (s : System) :
  exited s = None ->
  let s' := step s (Client ready) in
  let refusal :=
    cronRefusal (world s) (configuredPattern (env (world s)))
      (configuredTimezone (env (world s))) in
  (refusal = None ->
   TEST_MODE (env (world s)) = Some "true" ->
   optionCountOk (length (POLL_OPTIONS (world s))) = true ->
   issued s' = (issued s ++ [pollCall (world s)])%list /\
   pollsInFlight s' = S (pollsInFlight s)) /\
  (refusal = None ->
   TEST_MODE (env (world s)) <> Some "true" ->
   issued s' = issued s /\ pending s' = pending s /\ unhandled s' = unhandled s /\
   exited s' = None) /\
  (forall error,
     refusal = Some error ->
     issued s' = issued s /\ pending s' = pending s /\
     unhandled s' = (unhandled s ++ [error])%list /\
     exited s' = Some 1%Z).
Proof.
  intros Hlive s' refusal. subst s' refusal. split; [|split].
  - intros Hacc Htest Hok. unfold step. rewrite Hlive.
    destruct (run_listener_ready_test (world s)) as (k & Hrun);
      [exact Hacc | rewrite Htest; reflexivity | exact Hok |].
    destruct (pollsInFlight_dispatch_poll (listener ready) s _ _ k Hrun eq_refl)
      as (Hfl & Hiss & _).
    split; assumption.
  - intros Hacc Htest. unfold step. rewrite Hlive.
    assert (Hplain : strictEq (TEST_MODE (env (world s))) "true" = false).
    { destruct (TEST_MODE (env (world s))) as [v|]; [|reflexivity]. simpl.
      destruct (String.eqb v "true") eqn:Heq; [|reflexivity].
      apply String.eqb_eq in Heq. subst v. contradiction. }
    pose proof (run_listener_ready_plain (world s) Hacc Hplain) as Hrun.
    unfold dispatch. destruct (run (listener ready) (world s)) as [w st].
    simpl in Hrun. subst st. repeat split. exact Hlive.
  - intros error Href.
    destruct (ready_refused s error Hlive Href) as (Hex & Hunh & Hiss & Hpend & _).
    repeat split; assumption.
Qed.

Lemma ready_test_mode_witness :
  (issued (step testSystem (Client ready)) =
     (issued testSystem ++ [pollCall (world testSystem)])%list /\
   pollsInFlight (step testSystem (Client ready)) = S (pollsInFlight testSystem)) /\
  exited (step (step refusedSystem (Settle 0 sampleAck)) (Client ready)) = Some 1%Z.
Proof.
  split.
  - apply (proj1 (ready_test_mode testSystem eq_refl)).
    + reflexivity.
    + reflexivity.
    + reflexivity.
  - apply (proj2 (proj2 (ready_test_mode (step refusedSystem (Settle 0 sampleAck)) eq_refl))
             (ErrorObj "refused by node-cron")).
    reflexivity.
Defined.

(** X12. If the transport rejects [initialize()], [start] ends the process
    with exit code 1: no handler sees the rejection and no other call was
    issued. *)
Theorem start_failure_exits
    (environment : Env) (pollOptions : list string)
    (refusal : string -> string -> option Thrown) (date : Date)
    (s0 : System) (reason : Thrown) :
  boot environment pollOptions refusal date = inr s0 ->
  let s := step s0 (Settle 0 (Rejected reason)) in
  exited s = Some 1%Z /\ issued s = [client_initialize] /\
  unhandled s = [] /\ pending s = [].
Proof.
  unfold boot, main.
  destruct (TARGET_CHAT_ID environment) as [target|]; [|discriminate].
  destruct (String.eqb target EmptyString); [discriminate|].
  intros Heq. injection Heq as <-. repeat split.
Qed.

Lemma start_failure_exits_witness :
  exited (step bootedSystem (Settle 0 (Rejected (ErrorObj "Protocol error")))) = Some 1%Z.
Proof.
  apply (start_failure_exits sampleEnv readmeOptions sampleRefusal sampleDate bootedSystem
           (ErrorObj "Protocol error")).
  reflexivity.
Defined.

(** X13. On [SIGINT] or [SIGTERM] the handler first stops the scheduled task
    the application refers to, then hands [client.destroy()] to the
    transport, and the process stays alive while that call is pending. Once
    it resolves the session is not ready and the process exits with code 0.
    If it is rejected nothing catches the rejection: [process.exit(0)] is
    not reached, [isInitialized] is not cleared, and the unhandled rejection
    ends the process with exit code 1. *)
Theorem shutdown_sequence (s : System) :
  exited s = None ->
  let s1 := step s Signal in
  let n := length (pending s) in
  cronTasks (world s1) =
    match PrayerReminderBot.scheduledTask (prayerBot (world s)) with
    | Some task => alter taskStop task (cronTasks (world s))
    | None => cronTasks (world s)
    end /\
  issued s1 = (issued s ++ [client_destroy])%list /\
  exited s1 = None /\
  (forall ack,
     let s2 := step s1 (Settle n (Fulfilled ack)) in
     exited s2 = Some 0%Z /\
     WhatsAppBot.isReady (theBot (world s2)) = false /\
     issued s2 = issued s1 /\ unhandled s2 = unhandled s) /\
  (forall reason,
     let s2 := step s1 (Settle n (Rejected reason)) in
     exited s2 = Some 1%Z /\
     unhandled s2 = (unhandled s ++ [reason])%list /\
     issued s2 = issued s1 /\ world s2 = world s1).
Proof.
  intros Hlive.
  destruct s as [[e o refusal d tasks [[flag] target sched]] pend iss unh ex].
  simpl in Hlive. subst ex.
  destruct sched as [task|]; cbv zeta; unfold step at 1 3 5; simpl;
    unfold dispatch; simpl;
    (split; [reflexivity|]); (split; [reflexivity|]); (split; [reflexivity|]);
    split; intros x; unfold step; simpl;
    rewrite (list_lookup_middle pend [] _ (length pend) eq_refl); simpl;
    repeat split.
Qed.

Lemma shutdown_sequence_witness :
  exited (step (step readySystem Signal)
            (Settle (length (pending readySystem)) sampleAck)) = Some 0%Z.
Proof.
  pose proof (shutdown_sequence readySystem eq_refl) as (_ & _ & _ & Hok & _).
  apply (Hok (mkMessage "201234567890@c.us" EmptyString)).
Defined.

Lemma dispatch_suspended (p : Proc World unit) (s : System) (w : World)
    (c : Call) (k : Settled -> Proc World unit) :
  run p (world s) = (w, Suspended c k) ->
  dispatch p s =
    {| world := w; pending := (pending s ++ [(c, k)])%list;
       issued := (issued s ++ [c])%list; unhandled := unhandled s;
       exited := exited s |}.
Proof. intros Hrun. unfold dispatch. rewrite Hrun. reflexivity. Qed.

(** Settling the activation suspended last resumes its continuation. *)
Lemma step_settle_last (w : World) (pend : list (Call * (Settled -> Proc World unit)))
    (iss : list Call) (unh : list Thrown) (c : Call)
    (k : Settled -> Proc World unit) (result : Settled) :
  step {| world := w; pending := (pend ++ [(c, k)])%list; issued := iss;
          unhandled := unh; exited := None |}
       (Settle (length pend) result) =
  dispatch (k result)
    {| world := w; pending := delete (length pend) (pend ++ [(c, k)])%list;
       issued := iss; unhandled := unh; exited := None |}.
Proof.
  unfold step. simpl.
  rewrite (list_lookup_middle pend [] (c, k) (length pend) eq_refl). reflexivity.
Qed.

(** A trigger command on a session that can send: the poll first, and the
    reply once the poll send has settled. *)
Lemma run_onMessage_trigger_then_reply (m : Message) (w : World) :
  isPseudoSender (from m) = false -> isTriggerCommand (body m) = true ->
  WhatsAppBot.isReady (theBot w) = true ->
  optionCountOk (length (POLL_OPTIONS w)) = true ->
  exists k,
    run (onMessage m) w = (w, Suspended (pollCall w) k) /\
    forall r w', exists k2,
      run (k r) w' = (w', Suspended (message_reply m pollSentReply) k2).
Proof.
  intros Hsender Htrigger Hready Hok.
  destruct (run_sendDailyPrayerPoll_sends w Hready Hok) as (k & Hrun & Hk).
  unfold onMessage.
  unfold isPseudoSender in Hsender. unfold isTriggerCommand in Htrigger.
  rewrite Hsender, Htrigger.
  eexists. split.
  - etransitivity; [apply run_bind|]. rewrite Hrun. reflexivity.
  - intros r w'. simpl. rewrite Hk. simpl. eexists. reflexivity.
Qed.

(** A trigger command on a session that cannot send: the reply at once. *)
Lemma run_onMessage_trigger_reply_only (m : Message) (w : World) :
  isPseudoSender (from m) = false -> isTriggerCommand (body m) = true ->
  WhatsAppBot.isReady (theBot w) && optionCountOk (length (POLL_OPTIONS w)) = false ->
  exists k,
    run (onMessage m) w = (w, Suspended (message_reply m pollSentReply) k) /\
    forall reason w', run (k (Rejected reason)) w' = (w', Failed reason).
Proof.
  intros Hsender Htrigger Hcase.
  unfold onMessage.
  unfold isPseudoSender in Hsender. unfold isTriggerCommand in Htrigger.
  rewrite Hsender, Htrigger.
  eexists. split.
  - etransitivity; [apply run_bind|].
    rewrite (run_sendDailyPrayerPoll_skips w Hcase). reflexivity.
  - intros reason w'. reflexivity.
Qed.

(** X14. A trigger command from a chat member is always acknowledged with
    the fixed [Prayer poll sent!] reply, whether or not a poll was sent:
    when the session is not ready or the option list is out of range, the
    reply is the only call issued; when the poll was handed to the
    transport, the reply follows as soon as that send settles, fulfilled or
    rejected. A rejected reply is left unhandled. *)
Theorem trigger_always_acknowledged (s : System) (m : Message) :
  exited s = None ->
  isPseudoSender (from m) = false ->
  isTriggerCommand (body m) = true ->
  let s1 := step s (Client (message m)) in
  let n := length (pending s) in
  (WhatsAppBot.isReady (theBot (world s)) &&
     optionCountOk (length (POLL_OPTIONS (world s))) = false ->
   issued s1 = (issued s ++ [message_reply m pollSentReply])%list /\
   pollsInFlight s1 = pollsInFlight s /\
   forall reason,
     unhandled (step s1 (Settle n (Rejected reason))) = (unhandled s ++ [reason])%list) /\
  (WhatsAppBot.isReady (theBot (world s)) &&
     optionCountOk (length (POLL_OPTIONS (world s))) = true ->
   forall result,
     issued (step s1 (Settle n result)) =
       (issued s ++ [pollCall (world s); message_reply m pollSentReply])%list).
Proof.
  intros Hlive Hsender Htrigger. cbv zeta.
  assert (Hstep : step s (Client (message m)) = dispatch (onMessage m) s)
    by (unfold step; rewrite Hlive; reflexivity).
  rewrite Hstep. split; intros Hcase.
  - destruct (run_onMessage_trigger_reply_only m (world s) Hsender Htrigger Hcase)
      as (k & Hrun & Hk).
    rewrite (dispatch_suspended _ _ _ _ _ Hrun), Hlive.
    split; [reflexivity|]. split.
    + unfold pollsInFlight. simpl. rewrite List.filter_app, length_app. simpl. lia.
    + intros reason. rewrite step_settle_last. unfold dispatch. simpl.
      rewrite Hk. reflexivity.
  - intros result. apply andb_prop in Hcase as [Hready Hok].
    destruct (run_onMessage_trigger_then_reply m (world s) Hsender Htrigger Hready Hok)
      as (k & Hrun & Hk).
    rewrite (dispatch_suspended _ _ _ _ _ Hrun), Hlive.
    rewrite step_settle_last.
    destruct (Hk result (world s)) as (k2 & Hrun2).
    rewrite (dispatch_suspended _ _ (world s) (message_reply m pollSentReply) k2);
      [|exact Hrun2].
    simpl. rewrite <- app_assoc. reflexivity.
Qed.

Lemma trigger_always_acknowledged_witness :
  issued (step bootedSystem (Client (message prayerCommand))) =
    (issued bootedSystem ++ [message_reply prayerCommand pollSentReply])%list.
Proof.
  pose proof (trigger_always_acknowledged bootedSystem prayerCommand
                eq_refl eq_refl eq_refl) as [Hno _].
  apply (Hno eq_refl).
Defined.

(** ** The senders that are ignored *)

Lemma string_length_app (a b : string) :
  String.length (a +:+ b) = String.length a + String.length b.
Proof.
  induction a as [|x a IH]; [reflexivity|].
  rewrite string_app_cons. simpl. rewrite IH. reflexivity.
Qed.

Lemma substring_whole (s : string) : substring 0 (String.length s) s = s.
Proof. induction s as [|x s IH]; simpl; [reflexivity|]. rewrite IH. reflexivity. Qed.

Lemma substring_skip_prefix (before s : string) (m : nat) :
  substring (String.length before) m (before +:+ s) = substring 0 m s.
Proof.
  induction before as [|x before IH]; [reflexivity|].
  rewrite string_app_cons. simpl. exact IH.
Qed.

Lemma substring_split (s : string) (k : nat) :
  k <= String.length s ->
  s = substring 0 k s +:+ substring k (String.length s - k) s.
Proof.
  revert k. induction s as [|x s IH]; intros k Hk; simpl in *.
  - destruct k; [reflexivity | lia].
  - destruct k as [|k].
    + simpl. rewrite substring_whole. reflexivity.
    + rewrite string_app_cons. f_equal. apply IH. lia.
Qed.

Lemma endsWith_spec (s suffix : string) :
  endsWith s suffix = true <-> exists before, s = before +:+ suffix.
Proof.
  unfold endsWith. rewrite andb_true_iff, Nat.leb_le, String.eqb_eq. split.
  - intros [Hle Hsub]. exists (substring 0 (String.length s - String.length suffix) s).
    pose proof (substring_split s (String.length s - String.length suffix)) as Hsplit.
    replace (String.length s - (String.length s - String.length suffix))
      with (String.length suffix) in Hsplit by lia.
    rewrite Hsub in Hsplit. apply Hsplit. lia.
  - intros [before ->]. rewrite string_length_app. split; [lia|].
    replace (String.length before + String.length suffix - String.length suffix)
      with (String.length before) by lia.
    rewrite substring_skip_prefix. apply substring_whole.
Qed.

(** X15. The senders [onMessage] ignores are exactly [status@broadcast] and
    the identifiers that end in [@newsletter]; for those the handler issues
    no call and changes nothing, whatever the body, and the process is left
    as it was. *)
Theorem ignored_senders (s : System) (m : Message) :
  (isPseudoSender (from m) = true <->
     from m = "status@broadcast" \/ exists channel, from m = channel +:+ "@newsletter") /\
  (isPseudoSender (from m) = true -> step s (Client (message m)) = s).
Proof.
  split.
  - unfold isPseudoSender.
    rewrite orb_true_iff, String.eqb_eq, endsWith_spec. reflexivity.
  - intros Hsender. unfold step. destruct (exited s); [reflexivity|].
    unfold dispatch, listener, onMessage.
    unfold isPseudoSender in Hsender. rewrite Hsender. destruct s; reflexivity.
Qed.

Lemma ignored_senders_witness :
  step readySystem (Client (message (mkMessage "120363@newsletter" "!prayer")))
  = readySystem.
Proof.
  apply (proj2 (ignored_senders readySystem (mkMessage "120363@newsletter" "!prayer"))).
  reflexivity.
Defined.

(** ** What every run of the process obeys *)

Section Obeys.

Context {R : World -> World -> Prop} {C : World -> Call -> Prop} {E : Z -> Prop}.
Context (HS : Suitable R C E).

Local Abbreviation good := (obeysAlways R C E).

Lemma obeys_bind {A B} (p : Proc World A) (f : A -> Proc World B) (cur : World) :
  obeys R C E cur p -> (forall a, good (f a)) -> obeys R C E cur (bind p f).
Proof.
  revert cur. induction p as [a|e|code|k IH|s' k IH|c k IH]; simpl; intros cur Hp Hf; auto.
  - apply Hf.
  - destruct Hp as [Hs Hk]. split; auto.
  - destruct Hp as [Hc Hk]. split; auto.
Qed.

Lemma good_bind {A B} (p : Proc World A) (f : A -> Proc World B) :
  good p -> (forall a, good (f a)) -> good (bind p f).
Proof. intros Hp Hf cur. apply obeys_bind; auto. Qed.

Lemma good_sendDailyPrayerPoll : good sendDailyPrayerPoll.
Proof.
  intros cur. destruct cur as [e o refusal d tasks [[flag] target sched]].
  unfold sendDailyPrayerPoll. simpl. destruct flag; simpl; [|exact I].
  destruct (length o <? 2)%nat eqn:Hlo; simpl; [exact I|].
  destruct (12 <? length o)%nat eqn:Hhi; simpl; [exact I|].
  split.
  - apply (suit_poll R C E HS
             (mkWorld e o refusal d tasks (PrayerReminderBot.mk (WhatsAppBot.mk true) target sched))).
    + reflexivity.
    + unfold optionCountOk. simpl. rewrite Hlo, Hhi. reflexivity.
  - intros r cur'. destruct r; exact I.
Qed.

Lemma good_stopScheduledTasks : good stopScheduledTasks.
Proof.
  intros cur. unfold stopScheduledTasks. simpl.
  destruct (PrayerReminderBot.scheduledTask (prayerBot cur)) as [task|] eqn:Hsched;
    simpl; [|exact I].
  split; [|exact I]. apply (suit_stop R C E HS). exact Hsched.
Qed.

Lemma good_scheduleDailyPoll : good scheduleDailyPoll.
Proof.
  intros cur. pose proof (suit_schedule R C E HS cur) as Hsched.
  unfold scheduleDailyPoll in *. simpl in *.
  destruct (cronRefusal cur _ _); simpl in *; [exact I|].
  split; [exact Hsched | exact I].
Qed.

Lemma good_onReady : good onReady.
Proof.
  unfold onReady. apply good_bind.
  - intros cur. simpl. destruct (WhatsAppBot.isInitialized (theBot cur)); exact I.
  - intros _. apply good_bind; [apply good_scheduleDailyPoll|].
    intros _ cur. simpl.
    destruct (strictEq (TEST_MODE (env cur)) "true");
      [apply good_sendDailyPrayerPoll | exact I].
Qed.

Lemma good_reply (m : Message) (text : string) :
  (forall w, C w (message_reply m text)) ->
  good (bind (await (message_reply m text)) (fun _ => Ret tt) : Proc World unit).
Proof.
  intros Hc cur. simpl. split; [apply Hc|].
  intros r cur'. destruct r; exact I.
Qed.

Lemma good_onMessage (m : Message) : good (onMessage m).
Proof.
  unfold onMessage.
  destruct (_ || _); [intros cur; exact I|].
  destruct (_ || _).
  - apply good_bind; [apply good_sendDailyPrayerPoll|]. intros _.
    apply good_reply. intros w. apply (suit_ack R C E HS).
  - destruct (_ || _); [|intros cur; exact I].
    apply good_reply. intros w. apply (suit_help R C E HS).
Qed.

Lemma good_listener (e : ClientEvent) : good (listener e).
Proof.
  destruct e as [code| |msg| |m|reason].
  - intros cur. exact I.
  - intros cur. exact I.
  - intros cur. exact I.
  - unfold listener. apply good_bind; [|intros _; apply good_onReady].
    intros cur. simpl. split; [|exact I]. apply (suit_flag R C E HS).
  - apply good_onMessage.
  - unfold listener. apply good_bind; [|intros _; apply good_stopScheduledTasks].
    intros cur. simpl. split; [|exact I]. apply (suit_flag R C E HS).
Qed.

Lemma good_start : good start.
Proof.
  intros cur. simpl. split; [apply (suit_initialize R C E HS)|].
  intros r cur'. destruct r; simpl; [exact I | apply (suit_exit1 R C E HS)].
Qed.

Lemma good_onSignal : E 0%Z -> good onSignal.
Proof.
  intros Hexit0.
  unfold onSignal, stop. apply good_bind; [|intros _ cur; exact Hexit0].
  apply good_bind; [apply good_stopScheduledTasks|]. intros _ cur. simpl.
  split; [apply (suit_destroy R C E HS)|].
  intros r cur'. destruct r; simpl; [|exact I].
  split; [|exact I]. apply (suit_flag R C E HS).
Qed.

(** Running an obeying procedure: where it ends, what it issued and how it
    exited obey too, and so does what it leaves suspended. *)
Lemma obeys_run {A} (p : Proc World A) (cur : World) :
  obeys R C E cur p ->
  R cur (fst (run p cur)) /\
  (forall code, snd (run p cur) = Exited code -> E code) /\
  (forall c k, snd (run p cur) = Suspended c k ->
     issuedFrom R C cur c /\ forall r cur', obeys R C E cur' (k r)).
Proof.
  revert cur. induction p as [a|e|code|k IH|s' k IH|c k IH]; simpl; intros cur Hp.
  - split; [apply (suit_refl R C E HS)|]. split; discriminate.
  - split; [apply (suit_refl R C E HS)|]. split; discriminate.
  - split; [apply (suit_refl R C E HS)|]. split; [|discriminate].
    intros code' Heq. injection Heq as <-. exact Hp.
  - apply IH. exact Hp.
  - destruct Hp as [Hs Hk]. destruct (IH s' Hk) as (HR & Hexit & Hsusp).
    split; [eapply (suit_trans R C E HS); eassumption|]. split; [exact Hexit|].
    intros c k' Heq. destruct (Hsusp c k' Heq) as [(w' & Hw' & Hc) Hk'].
    split; [|exact Hk']. exists w'. split; [|exact Hc].
    eapply (suit_trans R C E HS); eassumption.
  - destruct Hp as [Hc Hk]. split; [apply (suit_refl R C E HS)|]. split; [discriminate|].
    intros c' k' Heq. injection Heq as -> ->. split; [|exact Hk].
    exists cur. split; [apply (suit_refl R C E HS) | exact Hc].
Qed.

(** What one activation adds to the process. *)
Lemma dispatch_obeys (p : Proc World unit) (s : System) :
  obeys R C E (world s) p -> pendingObey R C E s ->
  pendingObey R C E (dispatch p s) /\
  R (world s) (world (dispatch p s)) /\
  (exists calls, issued (dispatch p s) = (issued s ++ calls)%list /\
                 Forall (issuedFrom R C (world s)) calls) /\
  (exited (dispatch p s) = exited s \/
   exists code, exited (dispatch p s) = Some code /\ E code).
Proof.
  intros Hp Hs. destruct (obeys_run p (world s) Hp) as (HR & Hexit & Hsusp).
  unfold dispatch, pendingObey in *.
  destruct (run p (world s)) as [w [a|e|code|c k]]; simpl in *.
  - repeat split; auto. exists []. rewrite app_nil_r. split; [reflexivity|constructor].
  - repeat split; auto.
    + exists []. rewrite app_nil_r. split; [reflexivity|constructor].
    + right. exists 1%Z. split; [reflexivity|]. apply (suit_exit1 R C E HS).
  - repeat split; auto.
    + exists []. rewrite app_nil_r. split; [reflexivity|constructor].
    + right. exists code. split; [reflexivity|]. apply Hexit. reflexivity.
  - destruct (Hsusp c k eq_refl) as [Hc Hk]. repeat split; auto.
    + apply Forall_app. split; [exact Hs|]. constructor; [exact Hk|constructor].
    + exists [c]. split; [reflexivity|]. constructor; [exact Hc|constructor].
Qed.

(** What one event adds to the process. *)
Lemma step_obeys (s : System) (ev : Event) :
  (ev = Signal -> E 0%Z) ->
  pendingObey R C E s ->
  pendingObey R C E (step s ev) /\
  R (world s) (world (step s ev)) /\
  (exists calls, issued (step s ev) = (issued s ++ calls)%list /\
                 Forall (issuedFrom R C (world s)) calls) /\
  (exited (step s ev) = exited s \/
   exists code, exited (step s ev) = Some code /\ E code).
Proof.
  intros Hsignal Hs.
  assert (Hidle : pendingObey R C E s /\ R (world s) (world s) /\
                  (exists calls, issued s = (issued s ++ calls)%list /\
                                 Forall (issuedFrom R C (world s)) calls) /\
                  (exited s = exited s \/ exists code, exited s = Some code /\ E code)).
  { split; [exact Hs|]. split; [apply (suit_refl R C E HS)|]. split; [|left; reflexivity].
    exists []. rewrite app_nil_r. split; [reflexivity|constructor]. }
  unfold step. destruct (exited s) eqn:Hlive; [rewrite ?Hlive; exact Hidle|].
  destruct ev as [e|task|activation result|].
  - rewrite <- Hlive. apply dispatch_obeys; [apply good_listener | exact Hs].
  - destruct (isRunning task (world s)); [|rewrite ?Hlive; exact Hidle].
    rewrite <- Hlive. apply dispatch_obeys; [apply good_sendDailyPrayerPoll | exact Hs].
  - destruct (pending s !! activation) as [[c0 k0]|] eqn:Hlook;
      [|rewrite ?Hlive; exact Hidle].
    rewrite <- Hlive.
    apply (dispatch_obeys (k0 result)
             {| world := world s; pending := delete activation (pending s);
                issued := issued s; unhandled := unhandled s; exited := exited s |}).
    + unfold pendingObey in Hs. rewrite Forall_lookup in Hs.
      apply (Hs activation (c0, k0) Hlook).
    + unfold pendingObey in *. simpl. apply Forall_delete. exact Hs.
  - rewrite <- Hlive.
    apply dispatch_obeys; [apply good_onSignal, Hsignal; reflexivity | exact Hs].
Qed.

(** What a sequence of events adds to the process. *)
Lemma steps_obeys (evs : list Event) (s : System) :
  (In Signal evs -> E 0%Z) ->
  pendingObey R C E s ->
  pendingObey R C E (steps s evs) /\
  R (world s) (world (steps s evs)) /\
  (exists calls, issued (steps s evs) = (issued s ++ calls)%list /\
                 Forall (issuedFrom R C (world s)) calls) /\
  (exited (steps s evs) = exited s \/
   exists code, exited (steps s evs) = Some code /\ E code).
Proof.
  revert s. induction evs as [|ev evs IH]; intros s Hsignal Hs; simpl.
  - split; [exact Hs|]. split; [apply (suit_refl R C E HS)|]. split; [|left; reflexivity].
    exists []. rewrite app_nil_r. split; [reflexivity|constructor].
  - assert (Hhere : ev = Signal -> E 0%Z)
      by (intros ->; apply Hsignal; left; reflexivity).
    assert (Hlater : In Signal evs -> E 0%Z)
      by (intros Hin; apply Hsignal; right; exact Hin).
    destruct (step_obeys s ev Hhere Hs) as (Hs1 & HR1 & (calls1 & Hiss1 & Hcalls1) & Hex1).
    destruct (IH (step s ev) Hlater Hs1)
      as (Hs2 & HR2 & (calls2 & Hiss2 & Hcalls2) & Hex2).
    split; [exact Hs2|]. split; [eapply (suit_trans R C E HS); eassumption|]. split.
    + exists (calls1 ++ calls2)%list. split.
      * rewrite Hiss2, Hiss1, app_assoc. reflexivity.
      * apply Forall_app. split; [exact Hcalls1|].
        eapply Forall_impl; [exact Hcalls2|].
        intros c (w' & Hw' & Hc). exists w'. split; [|exact Hc].
        eapply (suit_trans R C E HS); eassumption.
    + destruct Hex2 as [Hsame | Hcode]; [|right; exact Hcode].
      rewrite Hsame. exact Hex1.
Qed.

(** The process [main] leaves obeys from the start. *)
Lemma boot_obeys (environment : Env) (pollOptions : list string)
    (refusal : string -> string -> option Thrown) (date : Date)
    (s0 : System) :
  boot environment pollOptions refusal date = inr s0 ->
  pendingObey R C E s0 /\
  exists target,
    TARGET_CHAT_ID environment = Some target /\
    world s0 =
      {| env := environment; POLL_OPTIONS := pollOptions;
         cronRefusal := refusal; now := date;
         cronTasks := []; prayerBot := PrayerReminderBot.new target |} /\
    issued s0 = [client_initialize] /\ exited s0 = None.
Proof.
  unfold boot, main.
  destruct (TARGET_CHAT_ID environment) as [target|]; [|discriminate].
  destruct (String.eqb target EmptyString); [discriminate|].
  intros Heq. injection Heq as <-. split.
  - unfold pendingObey, dispatch. simpl. constructor; [|constructor].
    simpl. intros r cur. destruct r; simpl; [exact I | apply (suit_exit1 R C E HS)].
  - exists target. repeat split.
Qed.

End Obeys.

Lemma suitable_sameConfig : Suitable sameConfig applicationCall exitCode.
Proof.
  constructor; unfold sameConfig, applicationCall, exitCode; simpl; auto.
  - intros x y z (H1 & H2 & H3) (H4 & H5 & H6).
    rewrite H4, H5, H6. auto.
  - intros w. destruct (cronRefusal w _ _); simpl; auto.
Qed.

Lemma exitCode_zero (evs : list Event) : In Signal evs -> exitCode 0%Z.
Proof. intros _. left. reflexivity. Qed.

Lemma anyExit_zero (evs : list Event) : In Signal evs -> anyExit 0%Z.
Proof. intros _. exact I. Qed.

(** X16. The configuration is fixed at startup: in every run of the
    process, whatever events arrive and however the transport answers, the
    environment, the imported poll options and the target chat stay the ones
    [main] started with. *)
Theorem configuration_never_changes
    (environment : Env) (pollOptions : list string)
    (refusal : string -> string -> option Thrown) (date : Date)
    (s0 : System) (evs : list Event) :
  boot environment pollOptions refusal date = inr s0 ->
  let w := world (steps s0 evs) in
  env w = environment /\
  POLL_OPTIONS w = pollOptions /\
  Some (PrayerReminderBot.targetChatId (prayerBot w)) = TARGET_CHAT_ID environment.
Proof.
  intros Hboot w. subst w.
  destruct (boot_obeys suitable_sameConfig _ _ _ _ _ Hboot)
    as (Hpend & target & Htarget & Hworld & _).
  destruct (steps_obeys suitable_sameConfig evs s0 (exitCode_zero evs) Hpend) as (_ & (He & Ho & Ht) & _).
  rewrite He, Ho, Ht, Hworld, Htarget. repeat split.
Qed.

Lemma configuration_never_changes_witness :
  env (world raceSystem) = sampleEnv /\
  POLL_OPTIONS (world raceSystem) = readmeOptions /\
  Some (PrayerReminderBot.targetChatId (prayerBot (world raceSystem)))
    = TARGET_CHAT_ID sampleEnv.
Proof.
  apply (configuration_never_changes sampleEnv readmeOptions sampleRefusal sampleDate bootedSystem
           [Settle 0 sampleAck; Client authenticated; Client ready; CronFire 0;
            Client (message {| from := "201111111111@c.us"; body := "!prayer" |})]).
  reflexivity.
Defined.

(** X17. In every run of the process, every call that reaches the transport
    is [initialize], [destroy], one of the two fixed replies, or a poll: the
    imported options (2 to 12 of them), multiple answers allowed, sent to
    the configured target and to no other chat. The application never sends
    a text message with [client.sendMessage]. *)
Theorem only_configured_calls
    (environment : Env) (pollOptions : list string)
    (refusal : string -> string -> option Thrown) (date : Date)
    (s0 : System) (evs : list Event) :
  boot environment pollOptions refusal date = inr s0 ->
  Forall (configuredCall environment pollOptions) (issued (steps s0 evs)).
Proof.
  intros Hboot.
  destruct (boot_obeys suitable_sameConfig _ _ _ _ _ Hboot)
    as (Hpend & target & Htarget & Hworld & Hiss0 & _).
  destruct (steps_obeys suitable_sameConfig evs s0 (exitCode_zero evs) Hpend)
    as (_ & _ & (calls & Hiss & Hcalls) & _).
  rewrite Hiss, Hiss0. apply Forall_app. split; [repeat constructor|].
  eapply Forall_impl; [exact Hcalls|].
  intros c (w' & (He & Ho & Ht) & Hc).
  rewrite Hworld in He, Ho, Ht. simpl in He, Ho, Ht.
  destruct c as [|chat content opts|m text|]; simpl in *; auto.
  destruct Hc as [Heq Hok]. unfold pollCall in Heq.
  injection Heq as -> -> ->. rewrite Ht, Ho in *. rewrite Htarget.
  split; [reflexivity|]. split; [reflexivity|]. split; [eexists; reflexivity | exact Hok].
Qed.

Lemma only_configured_calls_witness :
  Forall (configuredCall sampleEnv readmeOptions) (issued raceSystem).
Proof.
  apply (only_configured_calls sampleEnv readmeOptions sampleRefusal sampleDate bootedSystem
           [Settle 0 sampleAck; Client authenticated; Client ready; CronFire 0;
            Client (message {| from := "201111111111@c.us"; body := "!prayer" |})]).
  reflexivity.
Defined.

Lemma suitable_exitAfter (evs : list Event) :
  Suitable anyWorlds anyCall (exitAfter evs).
Proof.
  constructor; unfold anyWorlds, anyCall, exitAfter; auto.
Qed.

(** A rejection left unhandled ends the process with exit code 1, so at
    most one ever is. *)
Lemma dispatch_unhandled (p : Proc World unit) (s : System) :
  unhandled s = [] ->
  unhandled (dispatch p s) = [] \/
  (exited (dispatch p s) = Some 1%Z /\ length (unhandled (dispatch p s)) = 1).
Proof.
  intros Hnone. unfold dispatch.
  destruct (run p (world s)) as [w [a|e|code|c k]]; simpl; auto.
  right. rewrite Hnone. split; reflexivity.
Qed.

Lemma step_unhandled (s : System) (ev : Event) :
  unhandled s = [] \/ (exited s = Some 1%Z /\ length (unhandled s) = 1) ->
  unhandled (step s ev) = [] \/
  (exited (step s ev) = Some 1%Z /\ length (unhandled (step s ev)) = 1).
Proof.
  intros Hinv. unfold step. destruct (exited s) as [code|] eqn:Hlive;
    [rewrite ?Hlive; exact Hinv|].
  destruct Hinv as [Hnone | [Hex _]]; [|discriminate Hex].
  destruct ev as [e|task|activation result|].
  - apply dispatch_unhandled, Hnone.
  - destruct (isRunning task (world s)); [apply dispatch_unhandled, Hnone | left; exact Hnone].
  - destruct (pending s !! activation) as [[c0 k0]|]; [|left; exact Hnone].
    apply dispatch_unhandled. exact Hnone.
  - apply dispatch_unhandled, Hnone.
Qed.

Lemma steps_unhandled (evs : list Event) (s : System) :
  unhandled s = [] \/ (exited s = Some 1%Z /\ length (unhandled s) = 1) ->
  unhandled (steps s evs) = [] \/
  (exited (steps s evs) = Some 1%Z /\ length (unhandled (steps s evs)) = 1).
Proof.
  revert s. induction evs as [|ev evs IH]; intros s Hinv; simpl; [exact Hinv|].
  apply IH, step_unhandled, Hinv.
Qed.

(** X18. In every run of the process the exit code is unset, 0 or 1. It is
    0 only if a termination signal was delivered. A rejection left unhandled
    always ends the process with exit code 1, and at most one rejection is
    ever left unhandled. *)
Theorem exit_codes
    (environment : Env) (pollOptions : list string)
    (refusal : string -> string -> option Thrown) (date : Date)
    (s0 : System) (evs : list Event) :
  boot environment pollOptions refusal date = inr s0 ->
  let s := steps s0 evs in
  (exited s = None \/ exited s = Some 0%Z \/ exited s = Some 1%Z) /\
  (exited s = Some 0%Z -> In Signal evs) /\
  (unhandled s <> [] -> exited s = Some 1%Z) /\
  length (unhandled s) <= 1.
Proof.
  intros Hboot s. subst s.
  destruct (boot_obeys (suitable_exitAfter evs) _ _ _ _ _ Hboot)
    as (Hpend & target & _ & _ & _ & Hlive).
  assert (Hzero : In Signal evs -> exitAfter evs 0%Z)
    by (intros Hin; right; split; [reflexivity | exact Hin]).
  destruct (steps_obeys (suitable_exitAfter evs) evs s0 Hzero Hpend) as (_ & _ & _ & Hexit).
  assert (Hunh0 : unhandled s0 = []).
  { revert Hboot. unfold boot, main.
    destruct (TARGET_CHAT_ID environment) as [t|]; [|discriminate].
    destruct (String.eqb t EmptyString); [discriminate|].
    intros Heq. injection Heq as <-. reflexivity. }
  pose proof (steps_unhandled evs s0 (or_introl Hunh0)) as Hunh.
  split; [|split; [|split]].
  - destruct Hexit as [Hsame | (code & Hcode & [-> | [-> _]])].
    + left. rewrite Hsame. exact Hlive.
    + right. right. exact Hcode.
    + right. left. exact Hcode.
  - intros Hex0. destruct Hexit as [Hsame | (code & Hcode & [-> | [_ Hin]])].
    + rewrite Hsame, Hlive in Hex0. discriminate.
    + rewrite Hcode in Hex0. discriminate.
    + exact Hin.
  - intros Hsome. destruct Hunh as [Hnone | [Hex _]]; [contradiction | exact Hex].
  - destruct Hunh as [-> | [_ ->]]; simpl; lia.
Qed.

Lemma exit_codes_witness :
  let s := steps bootedSystem [Settle 0 sampleAck; Client ready; Signal; Settle 0 sampleAck] in
  (exited s = None \/ exited s = Some 0%Z \/ exited s = Some 1%Z) /\
  (exited s = Some 0%Z ->
   In Signal [Settle 0 sampleAck; Client ready; Signal; Settle 0 sampleAck]) /\
  (unhandled s <> [] -> exited s = Some 1%Z) /\
  length (unhandled s) <= 1.
Proof.
  apply (exit_codes sampleEnv readmeOptions sampleRefusal sampleDate bootedSystem
           [Settle 0 sampleAck; Client ready; Signal; Settle 0 sampleAck]).
  reflexivity.
Defined.

Lemma suitable_refersToLast : Suitable (keeps refersToLast) anyCall anyExit.
Proof.
  constructor; unfold keeps, anyCall, anyExit, refersToLast; simpl; auto.
  - intros x y z Hxy Hyz Hx. exact (Hyz (Hxy Hx)).
  - intros w task Hsched. rewrite Hsched, length_alter. auto.
  - intros w Hw. destruct (cronRefusal w _ _); simpl; [exact Hw|].
    rewrite length_app. simpl. lia.
Qed.

(** X19. In every run of the process, [scheduledTask] refers to an existing
    cron task, the one created last; it is unset only as long as no task was
    created. So the disarming in the disconnect handler and in [stop] always
    reaches the latest schedule, and never an earlier one. *)
Theorem scheduledTask_is_last
    (environment : Env) (pollOptions : list string)
    (refusal : string -> string -> option Thrown) (date : Date)
    (s0 : System) (evs : list Event) :
  boot environment pollOptions refusal date = inr s0 ->
  let w := world (steps s0 evs) in
  match PrayerReminderBot.scheduledTask (prayerBot w) with
  | Some task => S task = length (cronTasks w) /\ is_Some (cronTasks w !! task)
  | None => cronTasks w = []
  end.
Proof.
  intros Hboot w. subst w.
  destruct (boot_obeys suitable_refersToLast _ _ _ _ _ Hboot)
    as (Hpend & target & _ & Hworld & _).
  destruct (steps_obeys suitable_refersToLast evs s0 (anyExit_zero evs) Hpend) as (_ & Hkeep & _).
  assert (Hlast : refersToLast (world (steps s0 evs))).
  { apply Hkeep. rewrite Hworld. reflexivity. }
  unfold refersToLast in Hlast.
  destruct (PrayerReminderBot.scheduledTask (prayerBot (world (steps s0 evs))))
    as [task|]; [|exact Hlast].
  split; [exact Hlast|]. apply lookup_lt_is_Some. lia.
Qed.

Lemma scheduledTask_is_last_witness :
  S 1 = length (cronTasks (world (steps readySystem [Client ready]))) /\
  is_Some (cronTasks (world (steps readySystem [Client ready])) !! 1).
Proof.
  apply (scheduledTask_is_last sampleEnv readmeOptions sampleRefusal sampleDate bootedSystem
           [Settle 0 sampleAck; Client authenticated; Client ready; Client ready]).
  reflexivity.
Defined.

Lemma suitable_keepsConfigured : Suitable keepsConfigured anyCall anyExit.
Proof.
  constructor; unfold keepsConfigured, tasksConfigured, anyCall, anyExit; simpl; auto.
  - intros x y z [He1 Hk1] [He2 Hk2]. split; [congruence | auto].
  - intros w task _. split; [reflexivity|]. intros Hall.
    apply Forall_alter; [exact Hall|]. intros t _ Ht. exact Ht.
  - intros w. destruct (cronRefusal w _ _); simpl; [auto|].
    split; [reflexivity|]. intros Hall.
    apply Forall_app. split; [exact Hall|].
    constructor; [|constructor]. split; reflexivity.
Qed.

(** X20. Every cron task the process ever creates has the pattern and the
    time zone of the environment: [CRON_PATTERN] and [TIMEZONE] when they
    are set to a non-empty string, else [0 9 * * *] and [Africa/Cairo]. *)
Theorem tasks_follow_environment
    (environment : Env) (pollOptions : list string)
    (refusal : string -> string -> option Thrown) (date : Date)
    (s0 : System) (evs : list Event) :
  boot environment pollOptions refusal date = inr s0 ->
  Forall
    (fun t =>
       pattern t =
         match CRON_PATTERN environment with
         | Some p => if String.eqb p EmptyString then "0 9 * * *" else p
         | None => "0 9 * * *"
         end /\
       timezone t =
         match TIMEZONE environment with
         | Some z => if String.eqb z EmptyString then "Africa/Cairo" else z
         | None => "Africa/Cairo"
         end)
    (cronTasks (world (steps s0 evs))).
Proof.
  intros Hboot.
  destruct (boot_obeys suitable_keepsConfigured _ _ _ _ _ Hboot)
    as (Hpend & target & _ & Hworld & _).
  destruct (steps_obeys suitable_keepsConfigured evs s0 (anyExit_zero evs) Hpend) as (_ & [He Hkeep] & _).
  assert (Hall : tasksConfigured (world (steps s0 evs))).
  { apply Hkeep. rewrite Hworld. constructor. }
  unfold tasksConfigured in Hall. rewrite He, Hworld in Hall. exact Hall.
Qed.

Lemma tasks_follow_environment_witness :
  Forall
    (fun t =>
       pattern t =
         match CRON_PATTERN sampleEnv with
         | Some p => if String.eqb p EmptyString then "0 9 * * *" else p
         | None => "0 9 * * *"
         end /\
       timezone t =
         match TIMEZONE sampleEnv with
         | Some z => if String.eqb z EmptyString then "Africa/Cairo" else z
         | None => "Africa/Cairo"
         end)
    (cronTasks (world (steps bootedSystem [Settle 0 sampleAck; Client ready; Client ready]))).
Proof.
  apply (tasks_follow_environment sampleEnv readmeOptions sampleRefusal sampleDate bootedSystem
           [Settle 0 sampleAck; Client ready; Client ready]).
  reflexivity.
Defined.

Lemma suitable_tasksKept : Suitable tasksKept anyCall anyExit.
Proof.
  constructor; unfold tasksKept, anyCall, anyExit; simpl; auto.
  - intros w i t Hlook. exists t. auto.
  - intros x y z Hxy Hyz i t Hlook.
    destruct (Hxy i t Hlook) as (t1 & Hlook1 & Hp1 & Hz1 & Hr1).
    destruct (Hyz i t1 Hlook1) as (t2 & Hlook2 & Hp2 & Hz2 & Hr2).
    exists t2. repeat split; [exact Hlook2 | congruence | congruence | auto].
  - intros w b i t Hlook. exists t. auto.
  - intros w task _ i t Hlook.
    destruct (decide (task = i)) as [->|Hne].
    + exists (taskStop t). rewrite list_lookup_alter_eq, Hlook. simpl.
      repeat split. discriminate.
    + exists t. rewrite list_lookup_alter_ne by exact Hne. auto.
  - intros w i t Hlook. destruct (cronRefusal w _ _); simpl.
    + exists t. auto.
    + exists t. rewrite lookup_app_l_Some with (x := t); auto.
Qed.

(** X21. Cron tasks are never removed, never change their pattern or time
    zone, and are never restarted: in every run, a task that exists at some
    point exists at every later point with the same pattern and time zone,
    and if it runs later it ran then. A task the application has stopped
    never fires again. *)
Theorem tasks_never_restart
    (environment : Env) (pollOptions : list string)
    (refusal : string -> string -> option Thrown) (date : Date)
    (s0 : System) (before after : list Event) (task : nat) (t : ScheduledTask) :
  boot environment pollOptions refusal date = inr s0 ->
  cronTasks (world (steps s0 before)) !! task = Some t ->
  exists t',
    cronTasks (world (steps s0 (before ++ after))) !! task = Some t' /\
    pattern t' = pattern t /\ timezone t' = timezone t /\
    (running t' = true -> running t = true) /\
    (running t = false ->
     step (steps s0 (before ++ after)) (CronFire task) = steps s0 (before ++ after)).
Proof.
  intros Hboot Hlook.
  destruct (boot_obeys suitable_tasksKept _ _ _ _ _ Hboot) as (Hpend & _).
  destruct (steps_obeys suitable_tasksKept before s0 (anyExit_zero before) Hpend) as (Hpend1 & _).
  destruct (steps_obeys suitable_tasksKept after (steps s0 before) (anyExit_zero after) Hpend1)
    as (_ & Hkept & _).
  rewrite steps_app.
  destruct (Hkept task t Hlook) as (t' & Hlook' & Hp & Hz & Hr).
  exists t'. repeat split; auto.
  intros Hstopped. unfold step.
  destruct (exited (steps (steps s0 before) after)); [reflexivity|].
  unfold isRunning. rewrite Hlook'.
  destruct (running t') eqn:Hrun; [|reflexivity].
  rewrite (Hr eq_refl) in Hstopped. discriminate.
Qed.

Lemma tasks_never_restart_witness :
  exists t',
    cronTasks (world (steps bootedSystem
       ([Settle 0 sampleAck; Client ready; Client (disconnected "LOGOUT")]
        ++ [Client ready; CronFire 0]))) !! 0 = Some t' /\
    pattern t' = "0 9 * * *" /\ timezone t' = "Africa/Cairo" /\
    (running t' = true -> false = true) /\
    (false = false ->
     step (steps bootedSystem
       ([Settle 0 sampleAck; Client ready; Client (disconnected "LOGOUT")]
        ++ [Client ready; CronFire 0])) (CronFire 0)
     = steps bootedSystem
       ([Settle 0 sampleAck; Client ready; Client (disconnected "LOGOUT")]
        ++ [Client ready; CronFire 0])).
Proof.
  apply (tasks_never_restart sampleEnv readmeOptions sampleRefusal sampleDate bootedSystem
           [Settle 0 sampleAck; Client ready; Client (disconnected "LOGOUT")]
           [Client ready; CronFire 0] 0 (mkTask "0 9 * * *" "Africa/Cairo" false)).
  - reflexivity.
  - reflexivity.
Defined.

(** X22. A poll send started by the timer never brings the process down:
    on a ready session with 2 to 12 options the fire hands the poll to the
    transport, and when that send settles, fulfilled or rejected, the
    activation ends normally. No rejection is left unhandled, no further
    call is issued, the process does not exit and the application state is
    the same; a failed send is not retried. *)
Theorem timer_send_failure_is_swallowed (s : System) (task : nat) (result : Settled) :
  exited s = None ->
  isRunning task (world s) = true ->
  WhatsAppBot.isReady (theBot (world s)) = true ->
  optionCountOk (length (POLL_OPTIONS (world s))) = true ->
  let s2 := step (step s (CronFire task)) (Settle (length (pending s)) result) in
  unhandled s2 = unhandled s /\
  exited s2 = None /\
  world s2 = world s /\
  issued s2 = (issued s ++ [pollCall (world s)])%list /\
  pollsInFlight s2 = pollsInFlight s.
Proof.
  intros Hlive Htask Hready Hok. cbv zeta.
  destruct (run_sendDailyPrayerPoll_sends (world s) Hready Hok) as (k & Hrun & Hk).
  assert (Hstep : step s (CronFire task) = dispatch cronCallback s)
    by (unfold step; rewrite Hlive, Htask; reflexivity).
  rewrite Hstep. unfold cronCallback.
  rewrite (dispatch_suspended _ _ _ _ _ Hrun), Hlive.
  rewrite step_settle_last. unfold dispatch. simpl. rewrite Hk. simpl.
  repeat split.
  unfold pollsInFlight. simpl.
  replace (delete (length (pending s)) (pending s ++ [(pollCall (world s), k)])%list)
    with (pending s); [reflexivity|].
  clear. induction (pending s) as [|x l IH]; simpl; [reflexivity|].
  f_equal. exact IH.
Qed.

Lemma timer_send_failure_is_swallowed_witness :
  unhandled (step (step readySystem (CronFire 0))
               (Settle (length (pending readySystem))
                  (Rejected (ErrorObj "Evaluation failed"))))
    = unhandled readySystem /\
  exited (step (step readySystem (CronFire 0))
            (Settle (length (pending readySystem))
               (Rejected (ErrorObj "Evaluation failed"))))
    = None.
Proof.
  pose proof (timer_send_failure_is_swallowed readySystem 0
                (Rejected (ErrorObj "Evaluation failed"))
                eq_refl eq_refl eq_refl eq_refl) as (Hunh & Hlive & _).
  split; [exact Hunh | exact Hlive].
Defined.
